(** * KeOps build-and-cache configuration layer: a shallow embedding

    The development follows [keops/config/config.py]: the module-level
    initialisation code (cache folder stamping, build folder resolution,
    compiler flag assembly, CUDA probing) and its two functions
    [set_build_folder] and [init_cudalibs].

    Python strings are [string]; the filesystem is a finite map from
    resolved paths to nodes; module globals, the dynamic-loader log, the
    emitted warnings and the kernel registry live in one [World] record
    that is threaded through a state-and-exception monad, so that the
    mutations performed before a [raise] stay visible afterwards as they
    do in Python. *)

From Stdlib Require Import Ascii String ZArith Lia.
From stdpp Require Import gmap strings list.

Local Open Scope string_scope.
Local Open Scope list_scope.

(** ** Python [str] and [posixpath] helpers *)

Module pystr.

(** [str.isspace] restricted to the ASCII range. *)
Definition is_space (c : ascii) : bool :=
  let n := nat_of_ascii c in
  (Nat.leb 9 n && Nat.leb n 13) || (Nat.leb 28 n && Nat.leb n 32).

(** [s.rstrip()] *)
Fixpoint rstrip (s : string) : string :=
  match s with
  | EmptyString => EmptyString
  | String c s' =>
      let r := rstrip s' in
      if is_space c && String.eqb r "" then "" else String c r
  end.

(** Python truthiness of a [str]: the empty string is falsy. *)
Definition truthy (s : string) : bool := negb (String.eqb s "").

(** Truthiness of an optional [str] argument ([None] is falsy). *)
Definition truthy_opt (o : option string) : bool :=
  match o with Some s => truthy s | None => false end.

(** [s.endswith(t)] *)
Definition endswith (s t : string) : bool :=
  let n := String.length s in
  let k := String.length t in
  Nat.leb k n && String.eqb (String.substring (n - k) k s) t.

End pystr.

Module posixpath.

Definition sep : ascii := "/"%char.

Definition startswith_sep (s : string) : bool :=
  match s with
  | String c _ => Ascii.eqb c sep
  | EmptyString => false
  end.

Fixpoint endswith_sep (s : string) : bool :=
  match s with
  | EmptyString => false
  | String c EmptyString => Ascii.eqb c sep
  | String _ s' => endswith_sep s'
  end.

(** One step of [posixpath.join]: an absolute component restarts the
    path, otherwise it is appended with exactly one separator. *)
Definition join2 (a b : string) : string :=
  if startswith_sep b then b
  else if String.eqb a "" || endswith_sep a then a +:+ b
  else a +:+ "/" +:+ b.

(** [posixpath.join(a, *p)] *)
Definition join (a : string) (p : list string) : string := foldl join2 a p.

(** *** Lexical path resolution

    A path string denotes a list of components from the root.  The
    scanner keeps the components resolved so far and the component being
    read; [.] and empty components vanish and [..] drops the last
    component (there are no symbolic links in the model). *)

Definition flush (stack : list string) (cur : string) : list string :=
  if String.eqb cur "" || String.eqb cur "." then stack
  else if String.eqb cur ".." then removelast stack
  else stack ++ [cur].

Fixpoint scan (stack : list string) (cur : string) (s : string)
  : list string * string :=
  match s with
  | EmptyString => (stack, cur)
  | String c s' =>
      if Ascii.eqb c sep then scan (flush stack cur) "" s'
      else scan stack (cur +:+ String c "") s'
  end.

Definition resolve (cwd : list string) (s : string) : list string :=
  let '(stack, cur) := scan (if startswith_sep s then [] else cwd) "" s in
  flush stack cur.

(** Text of a resolved path, as [os.path.abspath] prints it. *)
Fixpoint render_from (p : list string) : string :=
  match p with
  | [] => ""
  | c :: p' => "/" +:+ c +:+ render_from p'
  end.

Definition render (p : list string) : string :=
  match p with [] => "/" | _ => render_from p end.

Definition abspath (cwd : list string) (s : string) : string :=
  render (resolve cwd s).

(** A plain file name: one component, neither empty nor [.] nor [..]. *)
Fixpoint no_sep (s : string) : bool :=
  match s with
  | EmptyString => true
  | String c s' => negb (Ascii.eqb c sep) && no_sep s'
  end.

Definition plain (n : string) : bool :=
  no_sep n && negb (String.eqb n "") && negb (String.eqb n ".")
  && negb (String.eqb n "..").

End posixpath.

(** ** The filesystem *)

Inductive node : Type :=
| Dir
| File (content : string).

#[global] Instance node_eq_dec : EqDecision node.
Proof. solve_decision. Defined.

(** Keys are resolved paths; the root [[]] is a directory that always
    exists and is not stored. *)
Definition node_at (fs : gmap (list string) node) (p : list string)
  : option node :=
  match p with
  | [] => Some Dir
  | _ => fs !! p
  end.

Definition is_file (o : option node) : bool :=
  match o with Some (File _) => true | _ => false end.

Definition is_dir (o : option node) : bool :=
  match o with Some Dir => true | _ => false end.

(** The paths [pre ++ r] for the non-empty prefixes [r] of [rest],
    shortest first: what a walk from [pre] down to [pre ++ rest] visits. *)
Fixpoint chain (pre rest : list string) : list (list string) :=
  match rest with
  | [] => []
  | c :: rest' => (pre ++ [c]) :: chain (pre ++ [c]) rest'
  end.

(** The non-empty proper prefixes of a path, shortest first. *)
Definition ancestors (p : list string) : list (list string) :=
  chain [] (removelast p).

Definition file_above (fs : gmap (list string) node) (p : list string) : bool :=
  existsb (λ q, is_file (fs !! q)) (ancestors p).

(** Every stored entry sits in a directory: the map is a tree. *)
Definition wf_fs (fs : gmap (list string) node) : Prop :=
  map_Forall (λ p _, node_at fs (removelast p) = Some Dir) fs.

#[global] Instance wf_fs_dec fs : Decision (wf_fs fs).
Proof. unfold wf_fs. apply _. Defined.

(** Python exceptions raised by the modelled code. *)
Inductive exn : Type :=
| FileNotFoundError
| FileExistsError
| NotADirectoryError
| IsADirectoryError
| OSError
| NameError
| BuildError
| LoadError.

#[global] Instance exn_eq_dec : EqDecision exn.
Proof. solve_decision. Defined.

Definition is_fs_error (e : exn) : bool :=
  match e with
  | FileNotFoundError | FileExistsError | NotADirectoryError
  | IsADirectoryError | OSError => true
  | _ => false
  end.

Inductive result (A : Type) : Type :=
| Ok (a : A)
| Raise (e : exn).
Arguments Ok {A} a.
Arguments Raise {A} e.

Module fsops.

Definition missing_error (fs : gmap (list string) node) (p : list string)
  : exn :=
  if file_above fs p then NotADirectoryError else FileNotFoundError.

(** [open(p).read()] on a resolved path *)
Definition read (fs : gmap (list string) node) (p : list string)
  : result string :=
  match node_at fs p with
  | Some (File c) => Ok c
  | Some Dir => Raise IsADirectoryError
  | None => Raise (missing_error fs p)
  end.

(** [open(p, "w").write(c)]: creates or truncates the file; the parent
    must be a directory. *)
Definition write (fs : gmap (list string) node) (p : list string)
    (c : string) : result unit * gmap (list string) node :=
  match node_at fs p with
  | Some Dir => (Raise IsADirectoryError, fs)
  | _ =>
      match node_at fs (removelast p) with
      | Some Dir => (Ok tt, <[p := File c]> fs)
      | Some (File _) => (Raise NotADirectoryError, fs)
      | None => (Raise (missing_error fs p), fs)
      end
  end.

(** [os.makedirs]: walk the components from the root, creating the
    missing directories.  On a tree ([wf_fs]) this visits the same
    directories as the library's recursion on [os.path.split]. *)
Fixpoint makedirs_walk (exist_ok : bool) (pre rest : list string)
    (fs : gmap (list string) node) : result unit * gmap (list string) node :=
  match rest with
  | [] => (Ok tt, fs)
  | c :: rest' =>
      let p := pre ++ [c] in
      match fs !! p, rest' with
      | None, _ => makedirs_walk exist_ok p rest' (<[p := Dir]> fs)
      | Some Dir, [] =>
          if exist_ok then (Ok tt, fs) else (Raise FileExistsError, fs)
      | Some Dir, _ => makedirs_walk exist_ok p rest' fs
      | Some (File _), [] => (Raise FileExistsError, fs)
      | Some (File _), _ => (Raise NotADirectoryError, fs)
      end
  end.

Definition makedirs (exist_ok : bool) (fs : gmap (list string) node)
    (p : list string) : result unit * gmap (list string) node :=
  match p with
  | [] => if exist_ok then (Ok tt, fs) else (Raise FileExistsError, fs)
  | _ => makedirs_walk exist_ok [] p fs
  end.

(** [shutil.rmtree]: remove the directory and everything below it. *)
Definition rmtree (fs : gmap (list string) node) (p : list string)
  : result unit * gmap (list string) node :=
  match node_at fs p with
  | Some Dir => (Ok tt, filter (λ kv, ¬ p `prefix_of` kv.1) fs)
  | Some (File _) => (Raise NotADirectoryError, fs)
  | None => (Raise (missing_error fs p), fs)
  end.

End fsops.

(** ** The environment of the process

    Everything the module reads from outside and never writes. *)

Record Env : Type := mkEnv {
  home : string;                    (* os.path.expanduser("~") *)
  cwd : list string;                (* the working directory, resolved *)
  config_dir : string;    (* os.path.dirname(os.path.realpath(__file__)) *)
  keops_version : string;           (* keops.__version__ *)
  platform_system : string;         (* platform.system() *)
  getenv : string → option string;  (* os.getenv *)
  find_library : string → option string;  (* ctypes.util.find_library *)
  dlopen_ok : option string → bool; (* whether CDLL(name) succeeds *)
  gpu_device_count : Z;             (* devices seen by the driver *)
  get_cuda_version : Z;             (* keops.utils.gpu_utils *)
  libcuda_folder_found : string;    (* keops.utils.gpu_utils.libcuda_folder *)
  libnvrtc_folder_found : string;   (* keops.utils.gpu_utils.libnvrtc_folder *)
  get_cuda_include_path : option string  (* keops.utils.gpu_utils *)
}.

(** The module globals assigned in lines 125-152; [None] is Python's
    [None]. *)
Record GpuConfig : Type := mkGpuConfig {
  cuda_version : option Z;
  libcuda_folder : option string;
  libnvrtc_folder : option string;
  nvrtc_flags : option string;
  nvrtc_include : option string;
  cuda_include_path : option string;
  jit_source_file : option string;
  jit_source_header : option string
}.

(** The in-memory kernel registry: loaded handles by signature, the folder
    artifacts are written to, the next fresh handle identity and the log
    of toolchain invocations (one signature per invocation). *)
Record Registry : Type := mkRegistry {
  handles : gmap string nat;
  save_folder : string;
  next_handle : nat;
  toolchain_log : list string
}.

Record World : Type := mkWorld {
  fs : gmap (list string) node;  (* the filesystem *)
  build_path : string;  (* line 44 *)
  jit_binary : option string;  (* lines 73 and 153 *)
  use_cuda : bool;  (* lines 10 and 123 *)
  use_OpenMP : bool;  (* lines 11 and 92 *)
  cpp_flags : string;  (* lines 81-102 *)
  cuda_available : bool;  (* lines 110 and 112 *)
  gpu : GpuConfig;  (* the globals of lines 125-152 *)
  init_cudalibs_flag : bool;  (* line 155 *)
  dl_loaded : list (option string);  (* CDLL(.., mode=RTLD_GLOBAL) calls, oldest first *)
  warnings : list string;  (* KeOps_Warning messages, oldest first *)
  registry : Registry  (* keops.get_keops_dll.get_keops_dll *)
}.

Definition set_fs (x : gmap (list string) node) (w : World) : World :=
  mkWorld x (build_path w) (jit_binary w) (use_cuda w) (use_OpenMP w)
    (cpp_flags w) (cuda_available w) (gpu w) (init_cudalibs_flag w)
    (dl_loaded w) (warnings w) (registry w).

Definition set_build_path (x : string) (w : World) : World :=
  mkWorld (fs w) x (jit_binary w) (use_cuda w) (use_OpenMP w) (cpp_flags
    w) (cuda_available w) (gpu w) (init_cudalibs_flag w) (dl_loaded w)
    (warnings w) (registry w).

Definition set_jit_binary (x : option string) (w : World) : World :=
  mkWorld (fs w) (build_path w) x (use_cuda w) (use_OpenMP w) (cpp_flags
    w) (cuda_available w) (gpu w) (init_cudalibs_flag w) (dl_loaded w)
    (warnings w) (registry w).

Definition set_use_cuda (x : bool) (w : World) : World :=
  mkWorld (fs w) (build_path w) (jit_binary w) x (use_OpenMP w) (cpp_flags
    w) (cuda_available w) (gpu w) (init_cudalibs_flag w) (dl_loaded w)
    (warnings w) (registry w).

Definition set_use_OpenMP (x : bool) (w : World) : World :=
  mkWorld (fs w) (build_path w) (jit_binary w) (use_cuda w) x (cpp_flags
    w) (cuda_available w) (gpu w) (init_cudalibs_flag w) (dl_loaded w)
    (warnings w) (registry w).

Definition set_cpp_flags (x : string) (w : World) : World :=
  mkWorld (fs w) (build_path w) (jit_binary w) (use_cuda w) (use_OpenMP w)
    x (cuda_available w) (gpu w) (init_cudalibs_flag w) (dl_loaded w)
    (warnings w) (registry w).

Definition set_cuda_available (x : bool) (w : World) : World :=
  mkWorld (fs w) (build_path w) (jit_binary w) (use_cuda w) (use_OpenMP w)
    (cpp_flags w) x (gpu w) (init_cudalibs_flag w) (dl_loaded w) (warnings
    w) (registry w).

Definition set_gpu (x : GpuConfig) (w : World) : World :=
  mkWorld (fs w) (build_path w) (jit_binary w) (use_cuda w) (use_OpenMP w)
    (cpp_flags w) (cuda_available w) x (init_cudalibs_flag w) (dl_loaded
    w) (warnings w) (registry w).

Definition set_init_cudalibs_flag (x : bool) (w : World) : World :=
  mkWorld (fs w) (build_path w) (jit_binary w) (use_cuda w) (use_OpenMP w)
    (cpp_flags w) (cuda_available w) (gpu w) x (dl_loaded w) (warnings w)
    (registry w).

Definition set_dl_loaded (x : list (option string)) (w : World) : World :=
  mkWorld (fs w) (build_path w) (jit_binary w) (use_cuda w) (use_OpenMP w)
    (cpp_flags w) (cuda_available w) (gpu w) (init_cudalibs_flag w) x
    (warnings w) (registry w).

Definition set_warnings (x : list string) (w : World) : World :=
  mkWorld (fs w) (build_path w) (jit_binary w) (use_cuda w) (use_OpenMP w)
    (cpp_flags w) (cuda_available w) (gpu w) (init_cudalibs_flag w)
    (dl_loaded w) x (registry w).

Definition set_registry (x : Registry) (w : World) : World :=
  mkWorld (fs w) (build_path w) (jit_binary w) (use_cuda w) (use_OpenMP w)
    (cpp_flags w) (cuda_available w) (gpu w) (init_cudalibs_flag w)
    (dl_loaded w) (warnings w) x.

(** ** State and exceptions *)

Definition M (A : Type) : Type := World → result A * World.

Definition ret {A} (a : A) : M A := λ w, (Ok a, w).

Definition raise {A} (e : exn) : M A := λ w, (Raise e, w).

Definition bind {A B} (m : M A) (k : A → M B) : M B :=
  λ w, match m w with
       | (Ok a, w') => k a w'
       | (Raise e, w') => (Raise e, w')
       end.

Definition gets {A} (f : World → A) : M A := λ w, (Ok (f w), w).

Definition modify (f : World → World) : M unit := λ w, (Ok tt, f w).

(** The notations [x ← m; k] and [m ;; k] stand for [bind]. *)
#[global] Instance M_ret : MRet M := @ret.
#[global] Instance M_bind : MBind M := λ A B k m, bind m k.

(** Lift a filesystem operation to the world. *)
Definition on_fs {A}
    (op : gmap (list string) node → result A * gmap (list string) node)
  : M A :=
  λ w, let '(r, fs') := op (fs w) in (r, set_fs fs' w).

(** [KeOps_Warning(msg)] prints a message and returns. *)
Definition KeOps_Warning (msg : string) : M unit :=
  modify (λ w, set_warnings (warnings w ++ [msg]) w).

(** ** The [os], [shutil] and [ctypes] calls the module makes

    Each takes the path text the program passes.  The empty path names no
    file. *)

Section os.
Variable env : Env.

Definition locate (s : string) : list string :=
  posixpath.resolve (cwd env) s.

Definition os_path_exists (s : string) : M bool :=
  gets (λ w, pystr.truthy s
             && bool_decide (is_Some (node_at (fs w) (locate s)))).

Definition os_path_isfile (s : string) : M bool :=
  gets (λ w, pystr.truthy s && is_file (node_at (fs w) (locate s))).

Definition os_path_isdir (s : string) : M bool :=
  gets (λ w, pystr.truthy s && is_dir (node_at (fs w) (locate s))).

(** [f = open(s); c = f.read(); f.close()] *)
Definition open_read (s : string) : M string :=
  if pystr.truthy s
  then on_fs (λ fs, (fsops.read fs (locate s), fs))
  else raise FileNotFoundError.

(** [f = open(s, "w"); f.write(c)], the file being closed at the latest
    when [f] goes out of scope. *)
Definition open_write (s c : string) : M unit :=
  if pystr.truthy s
  then on_fs (λ fs, fsops.write fs (locate s) c)
  else raise FileNotFoundError.

Definition os_makedirs (s : string) (exist_ok : bool) : M unit :=
  if pystr.truthy s
  then on_fs (λ fs, fsops.makedirs exist_ok fs (locate s))
  else raise FileNotFoundError.

Definition shutil_rmtree (s : string) : M unit :=
  if pystr.truthy s
  then on_fs (λ fs, fsops.rmtree fs (locate s))
  else raise FileNotFoundError.

(** [CDLL(name, mode=RTLD_GLOBAL)]; [CDLL(None)] opens the running
    program itself. *)
Definition CDLL (name : option string) : M unit :=
  if dlopen_ok env name
  then modify (λ w, set_dl_loaded (dl_loaded w ++ [name]) w)
  else raise OSError.

End os.

(** ** Collaborators of [config.py] that live in other modules *)

Module Gpu_link_compile.

(** Modelled from the spec: [jit_compile_dll] of
    [keops.binders.nvrtc.Gpu_link_compile] is missing from the sources.
    The filesystem layout of the spec puts the GPU JIT launcher at
    [<build_path>/keops_nvrtc.so], one per build path. *)
Definition jit_compile_dll : M string :=
  bp ← gets build_path;
  ret (posixpath.join bp ["keops_nvrtc.so"]).

(** Modelled from the spec: [Gpu_link_compile.compile_jit_compile_dll]
    is missing from the sources.  The spec says it builds the launcher
    where [jit_compile_dll] points; the content of the binary is
    opaque. *)
Definition compile_jit_compile_dll (env : Env) : M unit :=
  target ← jit_compile_dll;
  open_write env target "keops_nvrtc".

End Gpu_link_compile.

Module gpu_utils.

(** Modelled from the spec: [get_gpu_props] of [keops.utils.gpu_utils]
    is missing from the sources.  It returns the device count first and,
    as the comment at line 109 and the spec of the prober say, emits a
    warning itself when no device is usable. *)
Definition get_gpu_props (env : Env) : M Z :=
  let n := gpu_device_count env in
  (if (0 <? n)%Z then ret tt
   else KeOps_Warning "cuda was detected, but no device is usable ; using cpu only mode");;
  ret n.

End gpu_utils.

Module get_keops_dll.

(** Modelled from the spec: the [reset] method of the kernel registry
    ([keops.get_keops_dll.get_keops_dll]) is missing from the sources.
    The spec says it clears the entire in-memory map and, when a folder
    is given, makes it the folder of future artifacts; nothing on disk
    is deleted. *)
Definition reset (new_save_folder : option string) : M unit :=
  modify (λ w,
    let reg := registry w in
    set_registry
      {| handles := ∅;
         save_folder := default (save_folder reg) new_save_folder;
         next_handle := next_handle reg;
         toolchain_log := toolchain_log reg |} w).

End get_keops_dll.

(** ** [keops/config/config.py] *)

Module config.
Section config.
Variable env : Env.

(** Lines 10-11: the global parameters as the file sets them. *)
Definition use_cuda_setting : bool := true.
Definition use_OpenMP_setting : bool := true.

(** Lines 14-18 *)
Definition base_dir_path : string :=
  posixpath.abspath (cwd env) (posixpath.join (config_dir env) [".."]).
Definition template_path : string :=
  posixpath.join base_dir_path ["templates"].
Definition bindings_source_dir : string := posixpath.join base_dir_path [].
Definition keops_cache_folder : string :=
  posixpath.join (home env) [".cache"; "keops"].
Definition default_build_path : string :=
  posixpath.join keops_cache_folder ["build"].

(** Lines 21-39: init cache folder *)
Definition version_cache_file : string :=
  posixpath.join keops_cache_folder ["keops_version"].

Definition init_cache : M unit :=
  there ← os_path_exists env keops_cache_folder;
  test_init_cache ←
    (if there : bool then
       v ← open_read env version_cache_file;
       let cache_version := pystr.rstrip v in
       if negb (String.eqb cache_version (keops_version env)) then
         shutil_rmtree env keops_cache_folder;;
         ret true
       else ret false
     else ret true);
  if test_init_cache : bool then
    os_makedirs env keops_cache_folder false;;
    open_write env version_cache_file (keops_version env)
  else ret tt.

(** Lines 47-54 of [set_build_folder]: which folder to use. *)
Definition choose_build_folder (path : option string)
    (read_save_file : bool) : M string :=
  let save_file :=
    posixpath.join keops_cache_folder ["build_folder_location.txt"] in
  if negb (pystr.truthy_opt path) then
    saved ← os_path_isfile env save_file;
    if read_save_file && saved then open_read env save_file
    else ret default_build_path
  else ret (default "" path).

(** Lines 55-66 of [set_build_folder]: record the folder, create it,
    save its location and, on request, reset the registry and provide
    the GPU JIT launcher. *)
Definition use_build_folder (path : string) (reset_all : bool) : M unit :=
  let save_file :=
    posixpath.join keops_cache_folder ["build_folder_location.txt"] in
  modify (set_build_path path);;
  os_makedirs env path true;;
  open_write env save_file path;;
  if reset_all then
    bp ← gets build_path;
    get_keops_dll.reset (Some bp);;
    cuda ← gets use_cuda;
    if cuda : bool then
      target ← Gpu_link_compile.jit_compile_dll;
      there ← os_path_exists env target;
      if negb there then Gpu_link_compile.compile_jit_compile_dll env
      else ret tt
    else ret tt
  else ret tt.

(** Lines 46-66 *)
Definition set_build_folder (path : option string)
    (read_save_file reset_all : bool) : M unit :=
  path ← choose_build_folder path read_save_file;
  use_build_folder path reset_all.

(** Lines 76-77 *)
Definition cxx_compiler : string := "g++".
Definition compile_options : string := " -shared -fPIC -O3 -std=c++11".

Definition add_cpp_flags (extra : string) : M unit :=
  modify (λ w, set_cpp_flags (cpp_flags w +:+ extra) w).

(** Lines 81-102.  [import platform] sits inside [if use_OpenMP:], so
    the test at line 99 finds the name only when that branch ran. *)
Definition init_cpp_flags : M unit :=
  modify (set_cpp_flags (compile_options +:+ " -flto"));;
  openmp ← gets use_OpenMP;
  (if openmp : bool then
     if String.eqb (platform_system env) "Darwin" then
       if negb (bool_decide (getenv env "KMP_DUPLICATE_LIB_OK" = Some "TRUE"))
       then
         KeOps_Warning
           "OpenMP support is disabled on Mac by default, see the doc for enabling it.";;
         modify (set_use_OpenMP false)
       else add_cpp_flags " -Xclang -fopenmp -lomp "
     else add_cpp_flags " -fopenmp -fno-fat-lto-objects"
   else ret tt);;
  (if openmp : bool then ret tt else raise NameError);;
  (if String.eqb (platform_system env) "Darwin"
   then add_cpp_flags " -undefined dynamic_lookup" else ret tt);;
  add_cpp_flags (" -I" +:+ bindings_source_dir).

(** Lines 107-123 *)
Definition cuda_dependencies : list string := ["cuda"; "nvrtc"].

Definition probe_cuda : M unit :=
  (if forallb (λ lib, pystr.truthy_opt (find_library env lib))
        cuda_dependencies
   then
     n ← gpu_utils.get_gpu_props env;
     modify (set_cuda_available (0 <? n)%Z)
   else
     modify (set_cuda_available false);;
     KeOps_Warning
       "Cuda libraries were not detected on the system ; using cpu only mode");;
  cuda ← gets use_cuda;
  available ← gets cuda_available;
  (if negb cuda && available then
     KeOps_Warning
       "Cuda appears to be available on your system, but use_cuda is set to False in config.py. Using cpu only mode"
   else ret tt);;
  if cuda && negb available then modify (set_use_cuda false) else ret tt.

(** Lines 125-153 *)
Definition cpu_only : GpuConfig :=
  mkGpuConfig None None None None None None None None.

Definition init_gpu_config : M unit :=
  cuda ← gets use_cuda;
  if cuda : bool then
    let include := " -I" +:+ bindings_source_dir in
    modify (set_gpu
      {| cuda_version := Some (get_cuda_version env);
         libcuda_folder := Some (libcuda_folder_found env);
         libnvrtc_folder := Some (libnvrtc_folder_found env);
         nvrtc_flags :=
           Some (compile_options +:+ " -fpermissive -L"
                 +:+ libcuda_folder_found env +:+ " -L"
                 +:+ libnvrtc_folder_found env +:+ " -lcuda -lnvrtc");
         nvrtc_include :=
           Some (if pystr.truthy_opt (get_cuda_include_path env)
                 then include +:+ " -I"
                      +:+ default "" (get_cuda_include_path env)
                 else include);
         cuda_include_path := get_cuda_include_path env;
         jit_source_file :=
           Some (posixpath.join base_dir_path
                   ["binders"; "nvrtc"; "keops_nvrtc.cpp"]);
         jit_source_header :=
           Some (posixpath.join base_dir_path
                   ["binders"; "nvrtc"; "keops_nvrtc.h"]) |})
  else
    modify (set_gpu cpu_only);;
    modify (set_jit_binary None).

(** Lines 158-165 *)
Definition init_cudalibs : M unit :=
  flag ← gets init_cudalibs_flag;
  if negb flag then
    CDLL env (find_library env "nvrtc");;
    CDLL env (find_library env "cuda");;
    CDLL env (find_library env "cudart");;
    modify (set_init_cudalibs_flag true)
  else ret tt.

(** The module body, run once when [keops.config.config] is imported. *)
Definition import_module : M unit :=
  modify (set_use_cuda use_cuda_setting);;
  modify (set_use_OpenMP use_OpenMP_setting);;
  init_cache;;
  modify (set_build_path "");;
  set_build_folder None true false;;
  bp ← gets build_path;
  modify (set_jit_binary (Some (posixpath.join bp ["keops_nvrtc.so"])));;
  init_cpp_flags;;
  probe_cuda;;
  init_gpu_config;;
  modify (set_init_cudalibs_flag false).

End config.
End config.

(** The world a fresh process starts from: nothing loaded, no module
    global assigned yet. *)
Definition fresh_world (disk : gmap (list string) node) : World :=
  {| fs := disk; build_path := ""; jit_binary := None;
     use_cuda := false; use_OpenMP := false; cpp_flags := "";
     cuda_available := false; gpu := config.cpu_only;
     init_cudalibs_flag := false; dl_loaded := []; warnings := [];
     registry := {| handles := ∅; save_folder := ""; next_handle := 0;
                    toolchain_log := [] |} |}.

(** ** The kernel artifact registry *)

Module registry_model.
Section registry_model.
Variable env : Env.

(** Modelled from the spec: where the artifact of a signature lives,
    one file per signature under the registry's folder. *)
Definition artifact_path (folder signature : string) : string :=
  posixpath.join folder [signature].

(** An artifact that cannot be written is a failure of the build. *)
Definition as_build_error (m : M unit) : M unit :=
  λ w, match m w with
       | (Ok u, w') => (Ok u, w')
       | (Raise _, w') => (Raise BuildError, w')
       end.

(** Modelled from the spec: one toolchain invocation.  It is logged,
    and either leaves the artifact at [target] or is a build failure;
    [compiles] is what the toolchain answers this time. *)
Definition invoke_toolchain (signature target source_text : string)
    (compiles : bool) : M unit :=
  modify (λ w,
    let reg := registry w in
    set_registry
      {| handles := handles reg; save_folder := save_folder reg;
         next_handle := next_handle reg;
         toolchain_log := toolchain_log reg ++ [signature] |} w);;
  if compiles then as_build_error (open_write env target source_text)
  else raise BuildError.

(** Modelled from the spec: loading an artifact yields a handle that
    did not exist before and records it under the signature. *)
Definition load_artifact (signature : string) (loads : bool) : M nat :=
  if loads then
    reg ← gets registry;
    let h := next_handle reg in
    modify (set_registry
      {| handles := <[signature := h]> (handles reg);
         save_folder := save_folder reg;
         next_handle := S h;
         toolchain_log := toolchain_log reg |});;
    ret h
  else raise LoadError.

(** Modelled from the spec: [get_kernel] of the kernel registry
    ([keops.get_keops_dll]) is missing from the sources.  The five steps
    of the spec's algorithm: the in-memory map is consulted first; on a
    miss an artifact already on disk is reused, otherwise the toolchain
    is invoked; the artifact is loaded (after the runtime preloader in
    GPU mode) and the handle is stored.  A failure stores nothing. *)
Definition get_kernel (signature source_text : string)
    (compiles loads : bool) : M nat :=
  reg ← gets registry;
  match handles reg !! signature with
  | Some h => ret h
  | None =>
      let target := artifact_path (save_folder reg) signature in
      on_disk ← os_path_isfile env target;
      (if on_disk : bool then ret tt
       else invoke_toolchain signature target source_text compiles);;
      cuda ← gets use_cuda;
      (if cuda : bool then config.init_cudalibs env else ret tt);;
      load_artifact signature loads
  end.

(** A request as a consumer issues it, with the answers the toolchain
    and the loader would give. *)
Record request : Type := mkRequest {
  req_signature : string;
  req_source : string;
  req_compiles : bool;
  req_loads : bool
}.

Definition serve (r : request) : M nat :=
  get_kernel (req_signature r) (req_source r) (req_compiles r)
    (req_loads r).

(** Serve requests in order; a failed request is reported to its caller
    and the process goes on. *)
Fixpoint serve_all (rs : list request) (w : World) : World :=
  match rs with
  | [] => w
  | r :: rs' => serve_all rs' (serve r w).2
  end.

Definition invocations (signature : string) (w : World) : nat :=
  List.length
    (filter (λ s, s = signature) (toolchain_log (registry w))).

End registry_model.
End registry_model.

(** ** Vocabulary of the statements *)

(** The platform asks for an explicit opt-in to OpenMP and the
    environment does not give it (lines 87-88). *)
Definition openmp_opt_in_missing (env : Env) : bool :=
  String.eqb (platform_system env) "Darwin"
  && negb (bool_decide (getenv env "KMP_DUPLICATE_LIB_OK" = Some "TRUE")).

(** The OpenMP flag group of the platform (lines 94 and 96). *)
Definition openmp_flags (env : Env) : string :=
  if String.eqb (platform_system env) "Darwin"
  then " -Xclang -fopenmp -lomp "
  else " -fopenmp -fno-fat-lto-objects".

(** The text of the warning of lines 89-91. *)
Definition openmp_warning : string :=
  "OpenMP support is disabled on Mac by default, see the doc for enabling it.".

(** The platform-specific link flags (line 100). *)
Definition platform_link_flags (env : Env) : string :=
  if String.eqb (platform_system env) "Darwin"
  then " -undefined dynamic_lookup"
  else "".

(** A string of whitespace only. *)
Fixpoint all_space (s : string) : bool :=
  match s with
  | EmptyString => true
  | String c s' => pystr.is_space c && all_space s'
  end.

(** Resolved locations of the module's files. *)
Definition cache_root (env : Env) : list string :=
  locate env (config.keops_cache_folder env).

Definition stamp_file (env : Env) : list string :=
  locate env (config.version_cache_file env).

Definition save_file (env : Env) : list string :=
  locate env
    (posixpath.join (config.keops_cache_folder env)
       ["build_folder_location.txt"]).

(** The folder [set_build_folder] settles on: a non-empty [path] as it
    is given; otherwise the content of the saved-location file when it is
    to be read and is a file; otherwise the default folder. *)
Definition resolved_build_path (env : Env) (path : option string)
    (read_save_file : bool) (disk : gmap (list string) node) : string :=
  let fallback :=
    match (if read_save_file then disk !! save_file env else None) with
    | Some (File saved) => saved
    | _ => config.default_build_path env
    end in
  match path with
  | Some p => if pystr.truthy p then p else fallback
  | None => fallback
  end.

(** Where the GPU JIT launcher of a build folder lives. *)
Definition launcher_file (env : Env) (folder : string) : list string :=
  locate env (posixpath.join folder ["keops_nvrtc.so"]).

(** The world a call of [set_build_folder] that returns leaves behind,
    in closed form: [disk] is the disk once the folder is made and the
    saved location written. *)
Definition relocated (env : Env) (chosen : string) (reset_all : bool)
    (disk : gmap (list string) node) (w : World) : World :=
  let w2 := set_fs disk (set_build_path chosen w) in
  if reset_all then
    let w3 :=
      set_registry
        {| handles := ∅; save_folder := chosen;
           next_handle := next_handle (registry w);
           toolchain_log := toolchain_log (registry w) |} w2 in
    if use_cuda w
       && negb (bool_decide
                  (is_Some (node_at disk (launcher_file env chosen))))
    then set_fs (<[launcher_file env chosen := File "keops_nvrtc"]> disk) w3
    else w3
  else w2.

(** A disk on which [set_build_folder] has nothing left to do for the
    folder [chosen]: the folder and everything above it are directories,
    the saved-location file holds its path, and the cache folder is
    there. *)
Definition settled (env : Env) (chosen : string)
    (disk : gmap (list string) node) : Prop :=
  pystr.truthy chosen = true
  ∧ Forall (λ q, disk !! q = Some Dir) (chain [] (locate env chosen))
  ∧ disk !! save_file env = Some (File chosen)
  ∧ disk !! cache_root env = Some Dir.

(** A monadic computation keeps a property of the world, whether it
    returns or raises. *)
Definition invariant {A} (P : World → Prop) (m : M A) : Prop :=
  ∀ w, P w → P (m w).2.

(** The operations a process performs once the module is imported. *)
Inductive call : Type :=
| SetBuildFolder (path : option string) (read_save_file reset_all : bool)
| InitCudalibs
| GetKernel (r : registry_model.request)
| ResetRegistry (new_save_folder : option string).

Definition run_call (env : Env) (c : call) (w : World) : World :=
  match c with
  | SetBuildFolder path read_save_file reset_all =>
      (config.set_build_folder env path read_save_file reset_all w).2
  | InitCudalibs => (config.init_cudalibs env w).2
  | GetKernel r => (registry_model.serve env r w).2
  | ResetRegistry new_save_folder =>
      (get_keops_dll.reset new_save_folder w).2
  end.

Definition run_calls (env : Env) (cs : list call) (w : World) : World :=
  foldl (λ w c, run_call env c w) w cs.

(** ** Sample machines *)

Module sample.

Definition linux_cpu : Env :=
  {| home := "/home/u"; cwd := ["work"];
     config_dir := "/opt/keops/config";
     keops_version := "1.1"; platform_system := "Linux";
     getenv := λ _, None; find_library := λ _, None;
     dlopen_ok := λ _, true;
     gpu_device_count := 0%Z; get_cuda_version := 0%Z;
     libcuda_folder_found := ""; libnvrtc_folder_found := "";
     get_cuda_include_path := None |}.

Definition linux_gpu : Env :=
  {| home := "/home/u"; cwd := ["work"];
     config_dir := "/opt/keops/config";
     keops_version := "1.1"; platform_system := "Linux";
     getenv := λ _, None;
     find_library := λ lib, Some ("lib" +:+ lib +:+ ".so");
     dlopen_ok := λ _, true;
     gpu_device_count := 1%Z; get_cuda_version := 11%Z;
     libcuda_folder_found := "/usr/lib";
     libnvrtc_folder_found := "/usr/local/cuda/lib64";
     get_cuda_include_path := Some "/usr/local/cuda/include" |}.

Definition darwin : Env :=
  {| home := "/Users/u"; cwd := ["work"];
     config_dir := "/opt/keops/config";
     keops_version := "1.1"; platform_system := "Darwin";
     getenv := λ _, None; find_library := λ _, None;
     dlopen_ok := λ _, true;
     gpu_device_count := 0%Z; get_cuda_version := 0%Z;
     libcuda_folder_found := ""; libnvrtc_folder_found := "";
     get_cuda_include_path := None |}.

Definition cache : list string := ["home"; "u"; ".cache"; "keops"].

(** A cache stamped by an older release, with one old artifact. *)
Definition stale_disk : gmap (list string) node :=
  list_to_map
    [ (["home"], Dir); (["home"; "u"], Dir);
      (["home"; "u"; ".cache"], Dir); (cache, Dir);
      (cache ++ ["keops_version"], File "1.0");
      (cache ++ ["build"], Dir);
      (cache ++ ["build"; "old_kernel.so"], File "elf") ].

(** A cache folder whose stamp file has been removed. *)
Definition unstamped_disk : gmap (list string) node :=
  list_to_map
    [ (["home"], Dir); (["home"; "u"], Dir);
      (["home"; "u"; ".cache"], Dir); (cache, Dir);
      (cache ++ ["build"], Dir) ].

(** A home directory that has never seen the library. *)
Definition new_disk : gmap (list string) node :=
  list_to_map [ (["home"], Dir); (["home"; "u"], Dir) ].

(** A current cache whose saved build folder is [/data/keops]. *)
Definition relocated_disk : gmap (list string) node :=
  list_to_map
    [ (["home"], Dir); (["home"; "u"], Dir);
      (["home"; "u"; ".cache"], Dir); (cache, Dir);
      (cache ++ ["keops_version"], File "1.1");
      (cache ++ ["build_folder_location.txt"], File "/data/keops");
      (["data"], Dir) ].

(** A process that has imported the module on the GPU machine, whose
    registry writes to the build folder and holds one loaded kernel. *)
Definition busy_world : World :=
  let w := (config.import_module linux_gpu (fresh_world relocated_disk)).2 in
  run_calls linux_gpu
    [ ResetRegistry (Some (build_path w));
      GetKernel (registry_model.mkRequest "sig_a" "src_a" true true) ] w.

End sample.

(** * Verification *)

Section path_facts.
Import posixpath.

Lemma append_cons x (a b : string) : String x a +:+ b = String x (a +:+ b).
Proof. reflexivity. Qed.

Lemma append_empty_l (a : string) : "" +:+ a = a.
Proof. reflexivity. Qed.

Lemma append_assoc3 (a b c : string) : (a +:+ b) +:+ c = a +:+ (b +:+ c).
Proof.
  induction a as [|x a IH]; [done |]. rewrite !append_cons. by f_equal.
Qed.

Lemma append_empty_r (a : string) : a +:+ "" = a.
Proof.
  induction a as [|x a IH]; [done |]. rewrite append_cons. by f_equal.
Qed.

Lemma truthy_append_r (a b : string) :
  pystr.truthy b = true → pystr.truthy (a +:+ b) = true.
Proof. destruct a, b; done. Qed.

Lemma truthy_join2 (a b : string) :
  pystr.truthy b = true → pystr.truthy (join2 a b) = true.
Proof.
  intros Hb. unfold join2.
  destruct (startswith_sep b); [done |].
  destruct (_ || _); [by apply truthy_append_r |].
  apply truthy_append_r. by destruct b.
Qed.

Lemma scan_app (a b : string) : ∀ st cur,
  scan st cur (a +:+ b) = scan (scan st cur a).1 (scan st cur a).2 b.
Proof.
  induction a as [|x a IH]; intros st cur; [done |].
  rewrite append_cons. simpl.
  destruct (Ascii.eqb x sep); apply IH.
Qed.

Lemma scan_no_sep (n : string) : ∀ st cur,
  no_sep n = true → scan st cur n = (st, cur +:+ n).
Proof.
  induction n as [|x n IH]; intros st cur Hn; simpl in *.
  - by rewrite append_empty_r.
  - apply andb_prop in Hn as [Hx Hn].
    apply negb_true_iff in Hx. rewrite Hx, IH by done.
    by rewrite append_assoc3.
Qed.

Lemma scan_endswith_sep (a : string) : ∀ st cur,
  endswith_sep a = true → (scan st cur a).2 = "".
Proof.
  induction a as [|x a IH]; intros st cur Ha; [done |].
  simpl in Ha. destruct a as [|y a'].
  - simpl. by rewrite Ha.
  - change (scan st cur (String x (String y a')))
      with (if Ascii.eqb x sep then scan (flush st cur) "" (String y a')
            else scan st (cur +:+ String x "") (String y a')).
    destruct (Ascii.eqb x sep); by apply IH.
Qed.

Lemma flush_plain st (n : string) : plain n = true → flush st n = st ++ [n].
Proof.
  unfold plain, flush. intros H.
  repeat (apply andb_prop in H as [H ?]).
  repeat match goal with
         | H : negb _ = true |- _ => apply negb_true_iff in H; rewrite H
         end.
  done.
Qed.

Lemma plain_not_absolute (n : string) :
  plain n = true → startswith_sep n = false.
Proof.
  unfold plain. destruct n as [|x n]; simpl; [done |].
  intros H. repeat (apply andb_prop in H as [H ?]).
  by apply negb_true_iff in H.
Qed.

Lemma startswith_sep_append (a b : string) :
  pystr.truthy a = true → startswith_sep (a +:+ b) = startswith_sep a.
Proof. by destruct a. Qed.

(** Joining a plain name adds exactly one component. *)
Lemma resolve_join2 cwd (a n : string) :
  plain n = true → resolve cwd (join2 a n) = resolve cwd a ++ [n].
Proof.
  intros Hn. pose proof (plain_not_absolute n Hn) as Hrel.
  assert (no_sep n = true) as Hns.
  { unfold plain in Hn. by repeat (apply andb_prop in Hn as [Hn ?]). }
  unfold join2. rewrite Hrel.
  destruct (String.eqb_spec a "") as [-> | Ha]; simpl.
  - unfold resolve. rewrite append_empty_l, Hrel. simpl.
    rewrite scan_no_sep by done. rewrite append_empty_l.
    by apply flush_plain.
  - assert (pystr.truthy a = true) as Ht.
    { unfold pystr.truthy. apply negb_true_iff. by apply String.eqb_neq. }
    destruct (endswith_sep a) eqn:Hend; unfold resolve.
    + rewrite startswith_sep_append by done.
      rewrite scan_app.
      pose proof (scan_endswith_sep a
                    (if startswith_sep a then [] else cwd) "" Hend) as Hcur.
      destruct (scan _ "" a) as [st cur]. simpl in *. subst cur.
      rewrite scan_no_sep by done. simpl.
      rewrite flush_plain by done. done.
    + rewrite startswith_sep_append by done.
      rewrite scan_app.
      destruct (scan _ "" a) as [st cur]. simpl.
      rewrite scan_no_sep by done. simpl. by apply flush_plain.
Qed.

End path_facts.

(** ** Reasoning about monadic code *)

Section invariants.
Context {P : World → Prop}.

Lemma invariant_ret {A} (a : A) : invariant P (ret a).
Proof. by intros w. Qed.

Lemma invariant_mret {A} (a : A) : invariant P (mret a : M A).
Proof. by intros w. Qed.

Lemma invariant_raise {A} e : invariant P (raise e : M A).
Proof. by intros w. Qed.

Lemma invariant_gets {A} (f : World → A) : invariant P (gets f).
Proof. by intros w. Qed.

Lemma invariant_bind {A B} (m : M A) (k : A → M B) :
  invariant P m → (∀ a, invariant P (k a)) → invariant P (m ≫= k).
Proof.
  intros Hm Hk w Hw. specialize (Hm w Hw).
  unfold mbind, M_bind, bind. destruct (m w) as [[a | e] w']; simpl in *.
  - by apply Hk.
  - done.
Qed.

Lemma invariant_modify (g : World → World) :
  (∀ w, P w → P (g w)) → invariant P (modify g).
Proof. intros Hg w Hw. by apply Hg. Qed.

Lemma invariant_on_fs {A}
    (op : gmap (list string) node → result A * gmap (list string) node) :
  (∀ x w, P w → P (set_fs x w)) → invariant P (on_fs op).
Proof.
  intros Hfs w Hw. unfold on_fs. destruct (op (fs w)) as [r x]. by apply Hfs.
Qed.

Lemma invariant_as_build_error (m : M unit) :
  invariant P m → invariant P (registry_model.as_build_error m).
Proof.
  intros Hm w Hw. specialize (Hm w Hw). unfold registry_model.as_build_error.
  by destruct (m w) as [[u | e] w'].
Qed.

End invariants.

(** Break a computation into its steps; what remains are the side
    conditions on the state updates. *)
Ltac invariant_step :=
  lazymatch goal with
  | |- invariant _ (ret _) => apply invariant_ret
  | |- invariant _ (mret _) => apply invariant_mret
  | |- invariant _ (raise _) => apply invariant_raise
  | |- invariant _ (gets _) => apply invariant_gets
  | |- invariant _ (_ ≫= _) => apply invariant_bind; [| intros ?]
  | |- invariant _ (registry_model.as_build_error _) =>
      apply invariant_as_build_error
  | |- invariant _ (on_fs _) => apply invariant_on_fs; intros ? ?
  | |- invariant _ (modify _) => apply invariant_modify; intros ?
  | |- invariant _ (if ?c then _ else _) => destruct c
  | |- invariant _ (match ?c with _ => _ end) => destruct c
  end.

Ltac unfold_calls :=
  unfold config.set_build_folder, config.choose_build_folder,
    config.use_build_folder, config.init_cudalibs, config.init_cache,
    config.init_cpp_flags, config.probe_cuda, config.init_gpu_config,
    config.add_cpp_flags,
    registry_model.serve, registry_model.get_kernel,
    registry_model.invoke_toolchain, registry_model.load_artifact,
    get_keops_dll.reset, gpu_utils.get_gpu_props,
    Gpu_link_compile.compile_jit_compile_dll,
    Gpu_link_compile.jit_compile_dll,
    os_path_exists, os_path_isfile, os_path_isdir, open_read, open_write,
    os_makedirs, shutil_rmtree, CDLL, KeOps_Warning.

Ltac invariant_auto :=
  repeat first [ invariant_step | progress unfold_calls ].

(** ** Frame properties of the module's functions *)

Section frames.
Variable env : Env.

(** A field that no setter used by [set_build_folder] touches. *)
Lemma set_build_folder_keeps_jit_binary path read_save_file reset_all v :
  invariant (λ w, jit_binary w = v)
    (config.set_build_folder env path read_save_file reset_all).
Proof. invariant_auto; done. Qed.

Lemma set_build_folder_keeps_flag path read_save_file reset_all v :
  invariant (λ w, init_cudalibs_flag w = v)
    (config.set_build_folder env path read_save_file reset_all).
Proof. invariant_auto; done. Qed.

Lemma init_cudalibs_flag_stays :
  invariant (λ w, init_cudalibs_flag w = true) (config.init_cudalibs env).
Proof. invariant_auto; done. Qed.

Lemma get_kernel_flag_stays signature source_text compiles loads :
  invariant (λ w, init_cudalibs_flag w = true)
    (registry_model.get_kernel env signature source_text compiles loads).
Proof. invariant_auto; done. Qed.

Lemma reset_flag_stays new_save_folder :
  invariant (λ w, init_cudalibs_flag w = true)
    (get_keops_dll.reset new_save_folder).
Proof. invariant_auto; done. Qed.

End frames.

Ltac unfold_monad :=
  unfold mbind, M_bind, bind, mret, M_ret, ret, raise, gets, modify, on_fs.

(** ** Compiler flags (lines 76-102) *)

Section cpp_flags.
Variable env : Env.

(** The run of [init_cpp_flags] when [use_OpenMP] is on, in closed
    form. *)
Lemma init_cpp_flags_run w :
  use_OpenMP w = true →
  let r := config.init_cpp_flags env w in
  r.1 = Ok tt
  ∧ cpp_flags r.2 =
      config.compile_options +:+ " -flto"
      +:+ (if openmp_opt_in_missing env then "" else openmp_flags env)
      +:+ platform_link_flags env
      +:+ " -I" +:+ config.bindings_source_dir env
  ∧ use_OpenMP r.2 = negb (openmp_opt_in_missing env)
  ∧ warnings r.2 =
      warnings w
      ++ (if openmp_opt_in_missing env then [openmp_warning] else []).
Proof.
  intros Hon. unfold config.init_cpp_flags, config.add_cpp_flags,
    KeOps_Warning, openmp_opt_in_missing, openmp_flags, platform_link_flags.
  unfold_monad. simpl. rewrite Hon.
  destruct (String.eqb (platform_system env) "Darwin"); simpl.
  - destruct (bool_decide _); simpl;
      rewrite ?append_assoc3, ?append_empty_l, ?app_nil_r; done.
  - rewrite ?append_assoc3, ?append_empty_l, ?app_nil_r. done.
Qed.


(** C6: with [use_OpenMP] as the file sets it, the OpenMP flag group of
    the platform is added to [cpp_flags] unless the platform is Darwin
    and [KMP_DUPLICATE_LIB_OK] is not [TRUE]; in that case [use_OpenMP]
    becomes [False], [cpp_flags] holds no OpenMP group and one warning
    is emitted; no exception is raised either way. *)
Theorem openmp_flags_unless_opt_in_missing w :
  let r :=
    config.init_cpp_flags env
      (set_use_OpenMP config.use_OpenMP_setting w) in
  r.1 = Ok tt
  ∧ if openmp_opt_in_missing env then
      use_OpenMP r.2 = false
      ∧ cpp_flags r.2 =
          config.compile_options +:+ " -flto"
          +:+ platform_link_flags env
          +:+ " -I" +:+ config.bindings_source_dir env
      ∧ warnings r.2 = warnings w ++ [openmp_warning]
    else
      use_OpenMP r.2 = true
      ∧ cpp_flags r.2 =
          config.compile_options +:+ " -flto"
          +:+ openmp_flags env
          +:+ platform_link_flags env
          +:+ " -I" +:+ config.bindings_source_dir env
      ∧ warnings r.2 = warnings w.
Proof.
  intros r.
  destruct (init_cpp_flags_run (set_use_OpenMP config.use_OpenMP_setting w))
    as (Hok & Hflags & Hopenmp & Hwarn); [done |].
  fold r in Hok, Hflags, Hopenmp, Hwarn. split; [done |].
  destruct (openmp_opt_in_missing env); simpl in *.
  - by rewrite append_empty_l in Hflags.
  - by rewrite app_nil_r in Hwarn.
Qed.

(** C7, amended: the flag groups of [cpp_flags] come in the order base
    options, [-flto], the OpenMP group (if any), the platform-specific
    link flags, and last the include flag of the bindings directory. *)
Theorem cpp_flags_group_order w :
  let r :=
    config.init_cpp_flags env
      (set_use_OpenMP config.use_OpenMP_setting w) in
  ∃ openmp,
    (openmp = "" ∨ openmp = openmp_flags env)
    ∧ cpp_flags r.2 =
        (config.compile_options +:+ " -flto" +:+ openmp)
        +:+ platform_link_flags env
        +:+ (" -I" +:+ config.bindings_source_dir env).
Proof.
  intros r.
  destruct (init_cpp_flags_run (set_use_OpenMP config.use_OpenMP_setting w))
    as (_ & Hflags & _); [done |].
  fold r in Hflags.
  exists (if openmp_opt_in_missing env then "" else openmp_flags env).
  split; [destruct (openmp_opt_in_missing env); auto |].
  by rewrite Hflags, !append_assoc3.
Qed.

End cpp_flags.

(** C7, as stated, fails on Darwin: the string does not end with the
    platform link flag, the include flag follows it. *)
Lemma platform_link_flags_not_last :
  let r :=
    config.init_cpp_flags sample.darwin
      (set_use_OpenMP config.use_OpenMP_setting (fresh_world ∅)) in
  platform_link_flags sample.darwin = " -undefined dynamic_lookup"
  ∧ cpp_flags r.2 =
      " -shared -fPIC -O3 -std=c++11 -flto -undefined dynamic_lookup -I/opt/keops"
  ∧ pystr.endswith (cpp_flags r.2) (platform_link_flags sample.darwin)
    = false.
Proof. vm_compute. done. Qed.

(** ** CUDA probing (lines 105-153) *)

Section cuda.
Variable env : Env.

Lemma dependencies_unresolved lib :
  lib ∈ config.cuda_dependencies →
  pystr.truthy_opt (find_library env lib) = false →
  forallb (λ lib, pystr.truthy_opt (find_library env lib))
    config.cuda_dependencies = false.
Proof.
  unfold config.cuda_dependencies. intros Hin Hlib. simpl.
  apply elem_of_cons in Hin as [-> | Hin]; [by rewrite Hlib |].
  apply list_elem_of_singleton in Hin as ->.
  rewrite Hlib. simpl. apply andb_false_r.
Qed.

(** C5: when GPU mode is requested and a required library does not
    resolve or no device is counted, probing and the GPU configuration
    return normally, [use_cuda] is forced to [False], the GPU globals
    are all [None] (CPU-only), [cpp_flags] is untouched and exactly one
    warning is emitted. *)
Theorem gpu_unavailable_downgrades w :
  use_cuda w = true →
  (∃ lib, lib ∈ config.cuda_dependencies
          ∧ pystr.truthy_opt (find_library env lib) = false)
  ∨ (gpu_device_count env ≤ 0)%Z →
  let r := (config.probe_cuda env;; config.init_gpu_config env) w in
  r.1 = Ok tt
  ∧ use_cuda r.2 = false
  ∧ cuda_available r.2 = false
  ∧ gpu r.2 = config.cpu_only
  ∧ jit_binary r.2 = None
  ∧ cpp_flags r.2 = cpp_flags w
  ∧ ∃ msg, warnings r.2 = warnings w ++ [msg].
Proof.
  intros Hcuda Hun r. subst r.
  unfold config.probe_cuda, config.init_gpu_config,
    gpu_utils.get_gpu_props, KeOps_Warning.
  destruct (forallb _ config.cuda_dependencies) eqn:Hlibs.
  - destruct Hun as [(lib & Hin & Hlib) | Hcount].
    { by rewrite (dependencies_unresolved lib Hin Hlib) in Hlibs. }
    apply Z.ltb_ge in Hcount.
    unfold_monad. repeat (simpl; rewrite ?Hcount, ?Hcuda).
    repeat split; eauto.
  - unfold_monad. simpl. rewrite Hcuda. simpl. repeat split; eauto.
Qed.

End cuda.

Lemma gpu_unavailable_downgrades_witness :
  let w := set_use_cuda true (fresh_world sample.new_disk) in
  let r :=
    (config.probe_cuda sample.linux_cpu;;
     config.init_gpu_config sample.linux_cpu) w in
  r.1 = Ok tt
  ∧ use_cuda r.2 = false
  ∧ cuda_available r.2 = false
  ∧ gpu r.2 = config.cpu_only
  ∧ jit_binary r.2 = None
  ∧ cpp_flags r.2 = cpp_flags w
  ∧ ∃ msg, warnings r.2 = warnings w ++ [msg].
Proof.
  apply (gpu_unavailable_downgrades sample.linux_cpu
           (set_use_cuda true (fresh_world sample.new_disk))).
  - reflexivity.
  - left. exists "cuda". split; [by left | reflexivity].
Defined.

Lemma bind_ok_inv {A B} (m : M A) (k : A → M B) w b w' :
  (m ≫= k) w = (Ok b, w') →
  ∃ a w1, m w = (Ok a, w1) ∧ k a w1 = (Ok b, w').
Proof.
  unfold mbind, M_bind, bind. destruct (m w) as [[a | e] w1]; [eauto | done].
Qed.

(** ** The kernel registry *)

Section registry.
Variable env : Env.
Import registry_model.

Lemma get_kernel_hit signature source_text compiles loads w h :
  handles (registry w) !! signature = Some h →
  get_kernel env signature source_text compiles loads w = (Ok h, w).
Proof.
  intros Hh. unfold get_kernel. unfold_monad. simpl. by rewrite Hh.
Qed.

(** What one request does to the registry. *)
Lemma get_kernel_effect signature source_text compiles loads w :
  let r := get_kernel env signature source_text compiles loads w in
  let reg := registry w in
  let reg' := registry r.2 in
  (handles reg' = handles reg
   ∨ handles reg !! signature = None
     ∧ handles reg' = <[signature := next_handle reg]> (handles reg))
  ∧ (toolchain_log reg' = toolchain_log reg
     ∨ handles reg !! signature = None
       ∧ toolchain_log reg' = toolchain_log reg ++ [signature])
  ∧ (∀ h, r.1 = Ok h → handles reg' !! signature = Some h).
Proof.
  unfold get_kernel, invoke_toolchain, load_artifact, as_build_error,
    config.init_cudalibs, CDLL, os_path_isfile, open_write.
  unfold_monad. simpl.
  destruct (handles (registry w) !! signature) as [h0 |] eqn:Hh; simpl.
  { rewrite Hh. split_and!; auto. by intros ? [= <-]. }
  repeat match goal with
         | |- context [fsops.write ?a ?b ?c] =>
             destruct (fsops.write a b c) as [[] ?]; simpl
         | |- context [if ?c then _ else _] => destruct c; simpl
         end;
    split_and!; auto; intros ? [= <-]; by rewrite ?lookup_insert_eq.
Qed.

Lemma serve_keeps_handle r signature h w :
  handles (registry w) !! signature = Some h →
  handles (registry (serve env r w).2) !! signature = Some h.
Proof.
  intros Hh. unfold serve.
  destruct (get_kernel_effect (req_signature r) (req_source r)
              (req_compiles r) (req_loads r) w) as ([-> | [Hnone ->]] & _).
  - done.
  - rewrite lookup_insert_ne; [done |]. intros Heq.
    rewrite Heq in Hnone. congruence.
Qed.

Lemma invocations_snoc signature s (w w' : World) :
  toolchain_log (registry w') = toolchain_log (registry w) ++ [s] →
  invocations signature w' =
  (invocations signature w + (if decide (s = signature) then 1 else 0))%nat.
Proof.
  unfold invocations. intros ->. rewrite filter_app, length_app.
  f_equal. unfold filter. simpl. by destruct (decide_rel _ _ _).
Qed.

Lemma serve_no_invocation r signature h w :
  handles (registry w) !! signature = Some h →
  invocations signature (serve env r w).2 = invocations signature w.
Proof.
  intros Hh. unfold serve.
  destruct (get_kernel_effect (req_signature r) (req_source r)
              (req_compiles r) (req_loads r) w) as (_ & [Hlog | [Hnone Hlog]] & _).
  - unfold invocations. by rewrite Hlog.
  - rewrite (invocations_snoc _ _ _ _ Hlog).
    destruct (decide _) as [Heq |]; [| lia].
    rewrite Heq in Hnone. congruence.
Qed.

Lemma serve_all_keeps rs signature h : ∀ w,
  handles (registry w) !! signature = Some h →
  handles (registry (serve_all env rs w)) !! signature = Some h
  ∧ invocations signature (serve_all env rs w) = invocations signature w.
Proof.
  induction rs as [| r rs IH]; intros w Hh; simpl; [done |].
  destruct (IH (serve env r w).2) as [Hh' Hn].
  { by apply serve_keeps_handle. }
  split; [done |]. rewrite Hn. by eapply serve_no_invocation.
Qed.

Lemma get_kernel_invokes_once signature source_text compiles loads w :
  (invocations signature
     (get_kernel env signature source_text compiles loads w).2
   ≤ invocations signature w + 1)%nat.
Proof.
  destruct (get_kernel_effect signature source_text compiles loads w)
    as (_ & [Hlog | [_ Hlog]] & _).
  - unfold invocations. rewrite Hlog. lia.
  - rewrite (invocations_snoc _ _ _ _ Hlog). by rewrite decide_True.
Qed.

(** C1: once a request for a signature has returned a handle, every
    later request for that signature, whatever was requested in
    between, returns the same handle from the in-memory map and leaves
    the world as it is; the toolchain ran at most once for the signature
    over the whole sequence. *)
Theorem same_signature_same_handle
    signature source_text compiles loads w h w1
    rs source_text' compiles' loads' :
  get_kernel env signature source_text compiles loads w = (Ok h, w1) →
  let w2 := serve_all env rs w1 in
  get_kernel env signature source_text' compiles' loads' w2 = (Ok h, w2)
  ∧ invocations signature w2 = invocations signature w1
  ∧ (invocations signature w2 ≤ invocations signature w + 1)%nat.
Proof.
  intros Hfirst w2.
  pose proof (get_kernel_effect signature source_text compiles loads w)
    as (_ & _ & Hstored).
  pose proof (get_kernel_invokes_once signature source_text compiles loads w)
    as Honce.
  rewrite Hfirst in Hstored, Honce. simpl in Hstored, Honce.
  specialize (Hstored h eq_refl).
  destruct (serve_all_keeps rs signature h w1 Hstored) as [Hh Hn].
  split_and!.
  - by apply get_kernel_hit.
  - done.
  - subst w2. lia.
Qed.

End registry.

Lemma same_signature_same_handle_witness :
  let env := sample.linux_gpu in
  let w :=
    run_call env (ResetRegistry (Some "/data/keops"))
      (config.import_module env (fresh_world sample.relocated_disk)).2 in
  let w1 := (registry_model.get_kernel env "sig_a" "src_a" true true w).2 in
  let w2 :=
    registry_model.serve_all env
      [registry_model.mkRequest "sig_b" "src_b" true true;
       registry_model.mkRequest "sig_a" "src_a" false false] w1 in
  registry_model.get_kernel env "sig_a" "src_a" true true w2 = (Ok 0, w2)
  ∧ registry_model.invocations "sig_a" w2
    = registry_model.invocations "sig_a" w1
  ∧ (registry_model.invocations "sig_a" w2
     ≤ registry_model.invocations "sig_a" w + 1)%nat.
Proof.
  intros env w w1 w2.
  apply (same_signature_same_handle env "sig_a" "src_a" true true w 0 w1).
  vm_compute. reflexivity.
Defined.

(** ** The runtime library preloader (lines 155-165) *)

Section preloader.
Variable env : Env.

Lemma run_call_keeps_flag c w :
  init_cudalibs_flag w = true → init_cudalibs_flag (run_call env c w) = true.
Proof.
  destruct c; unfold run_call, registry_model.serve.
  - exact (set_build_folder_keeps_flag env _ _ _ true w).
  - exact (init_cudalibs_flag_stays env w).
  - exact (get_kernel_flag_stays env _ _ _ _ w).
  - exact (reset_flag_stays _ w).
Qed.

(** C8: with the flag off and the three libraries found and loadable,
    [init_cudalibs] opens exactly nvrtc, cuda and cudart, in this order,
    and turns the flag on; with the flag on it does nothing, so a second
    call after a successful one changes nothing; and no operation of the
    process turns the flag off again. *)
Theorem init_cudalibs_once :
  (∀ w nvrtc cuda cudart,
     init_cudalibs_flag w = false →
     find_library env "nvrtc" = Some nvrtc →
     find_library env "cuda" = Some cuda →
     find_library env "cudart" = Some cudart →
     dlopen_ok env (Some nvrtc) = true →
     dlopen_ok env (Some cuda) = true →
     dlopen_ok env (Some cudart) = true →
     config.init_cudalibs env w =
     (Ok tt,
      set_init_cudalibs_flag true
        (set_dl_loaded
           (dl_loaded w ++ [Some nvrtc; Some cuda; Some cudart]) w)))
  ∧ (∀ w, init_cudalibs_flag w = true →
          config.init_cudalibs env w = (Ok tt, w))
  ∧ (∀ w, (config.init_cudalibs env w).1 = Ok tt →
          config.init_cudalibs env (config.init_cudalibs env w).2
          = (Ok tt, (config.init_cudalibs env w).2))
  ∧ (∀ cs w, init_cudalibs_flag w = true →
             init_cudalibs_flag (run_calls env cs w) = true).
Proof.
  split_and!.
  - intros w nvrtc cuda cudart Hoff Hn Hc Hr Hdn Hdc Hdr.
    unfold config.init_cudalibs, CDLL. unfold_monad.
    rewrite Hoff, Hn, Hc, Hr. simpl. rewrite Hdn. simpl.
    rewrite Hdc. simpl. rewrite Hdr. simpl.
    by rewrite <- !app_assoc.
  - intros w Hon. unfold config.init_cudalibs. unfold_monad.
    by rewrite Hon.
  - intros w. unfold config.init_cudalibs, CDLL. unfold_monad.
    destruct (init_cudalibs_flag w) eqn:Hflag; simpl.
    { by rewrite Hflag. }
    repeat (destruct (dlopen_ok env _); simpl; [| done]). done.
  - intros cs. induction cs as [| c cs IH]; intros w Hon; simpl; [done |].
    apply IH. by apply run_call_keeps_flag.
Qed.

End preloader.

Lemma init_cudalibs_once_witness :
  let w := fresh_world sample.new_disk in
  config.init_cudalibs sample.linux_gpu w =
  (Ok tt,
   set_init_cudalibs_flag true
     (set_dl_loaded
        [Some "libnvrtc.so"; Some "libcuda.so"; Some "libcudart.so"] w))
  ∧ init_cudalibs_flag
      (run_calls sample.linux_gpu
         [InitCudalibs; SetBuildFolder (Some "/tmp/k") false true;
          InitCudalibs]
         (set_init_cudalibs_flag true w))
    = true.
Proof.
  destruct (init_cudalibs_once sample.linux_gpu) as (Hfirst & _ & _ & Hmono).
  split.
  - apply (Hfirst (fresh_world sample.new_disk)); reflexivity.
  - apply Hmono. reflexivity.
Defined.

(** ** Filesystem facts *)

Section fs_facts.
Implicit Types (fs : gmap (list string) node) (p q k : list string).

Lemma set_fs_same w : set_fs (fs w) w = w.
Proof. by destruct w. Qed.

Lemma node_at_snoc fs p c : node_at fs (p ++ [c]) = fs !! (p ++ [c]).
Proof. by destruct p. Qed.

Lemma node_at_nonempty fs p : p ≠ [] → node_at fs p = fs !! p.
Proof. by destruct p. Qed.

Lemma elem_of_chain k rest : ∀ pre,
  k ∈ chain pre rest ↔
  ∃ r1 r2, r1 ≠ [] ∧ rest = r1 ++ r2 ∧ k = pre ++ r1.
Proof.
  induction rest as [| c rest IH]; intros pre; simpl.
  - rewrite elem_of_nil. split; [done |].
    intros (r1 & r2 & Hne & Heq & _). by destruct r1.
  - rewrite elem_of_cons, IH. split.
    + intros [-> | (r1 & r2 & Hne & -> & ->)].
      * by exists [c], rest.
      * exists (c :: r1), r2. by rewrite <- app_assoc.
    + intros (r1 & r2 & Hne & Heq & ->).
      destruct r1 as [| c' r1]; [done |]. simplify_eq/=.
      destruct r1 as [| c'' r1]; [by left | right].
      exists (c'' :: r1), r2. by rewrite <- app_assoc.
Qed.

Lemma chain_snoc rest c : ∀ pre,
  chain pre (rest ++ [c]) = chain pre rest ++ [pre ++ rest ++ [c]].
Proof.
  induction rest as [| d rest IH]; intros pre; simpl; [done |].
  by rewrite IH, <- !app_assoc.
Qed.

Lemma not_in_own_chain p rest : p ∉ chain p rest.
Proof.
  rewrite elem_of_chain. intros (r1 & r2 & Hne & _ & Heq).
  apply (f_equal length) in Heq. rewrite length_app in Heq.
  destruct r1; [done | simpl in Heq; lia].
Qed.

(** On a tree, everything above an entry is a directory. *)
Lemma wf_above fs q : wf_fs fs → ∀ p x,
  fs !! (p ++ q) = Some x → q ≠ [] → node_at fs p = Some Dir.
Proof.
  intros Hwf. induction q as [| c q IH] using rev_ind; intros p x Hx Hq.
  - done.
  - pose proof (Hwf _ _ Hx) as Hpar. simpl in Hpar.
    rewrite app_assoc, removelast_last in Hpar.
    destruct q as [| d q].
    + by rewrite app_nil_r in Hpar.
    + rewrite node_at_nonempty in Hpar by (by destruct p).
      by apply (IH p Dir).
Qed.

Lemma wf_below_absent fs p k :
  wf_fs fs → p ≠ [] → fs !! p = None → p `prefix_of` k → fs !! k = None.
Proof.
  intros Hwf Hp Hnone [q ->].
  destruct (fs !! (p ++ q)) as [x |] eqn:Hx; [| done].
  destruct q as [| c q].
  - rewrite app_nil_r in Hx. congruence.
  - pose proof (wf_above fs (c :: q) Hwf p x Hx ltac:(done)) as Hdir.
    rewrite node_at_nonempty in Hdir by done. congruence.
Qed.

(** *** [open(.., "w")] *)

Lemma write_ok fs p c fs' :
  fsops.write fs p c = (Ok tt, fs') →
  fs' = <[p := File c]> fs
  ∧ node_at fs p ≠ Some Dir
  ∧ node_at fs (removelast p) = Some Dir.
Proof.
  unfold fsops.write.
  destruct (node_at fs p) as [[|] |];
    destruct (node_at fs (removelast p)) as [[|] |];
    intros; simplify_eq; done.
Qed.

Lemma write_succeeds fs p c :
  node_at fs p ≠ Some Dir →
  node_at fs (removelast p) = Some Dir →
  fsops.write fs p c = (Ok tt, <[p := File c]> fs).
Proof.
  unfold fsops.write. intros Hp ->. by destruct (node_at fs p) as [[|] |].
Qed.

(** *** [os.makedirs] *)

Lemma makedirs_walk_ok exist_ok rest : ∀ pre fs,
  Forall (λ q, is_file (fs !! q) = false) (chain pre rest) →
  (exist_ok = false → rest ≠ [] → fs !! (pre ++ rest) = None) →
  ∃ fs', fsops.makedirs_walk exist_ok pre rest fs = (Ok tt, fs')
         ∧ ∀ k, fs' !! k =
                if decide (k ∈ chain pre rest) then Some Dir else fs !! k.
Proof.
  induction rest as [| c rest IH]; intros pre fs Hfiles Hfresh.
  - exists fs. split; [done |]. intros k.
    destruct (decide (k ∈ chain pre [])) as [Hin |]; [| done].
    by apply elem_of_nil in Hin.
  - simpl in Hfiles. apply Forall_cons in Hfiles as [Hhead Hfiles].
    assert (∀ k, k ≠ pre ++ [c] →
              k ∈ chain pre (c :: rest) ↔ k ∈ chain (pre ++ [c]) rest)
      as Htail.
    { intros k Hk. simpl. rewrite elem_of_cons. naive_solver. }
    assert (∀ (o1 o2 : option node) k,
               (k ≠ pre ++ [c] → o1 = o2) →
               (k = pre ++ [c] → o1 = Some Dir) →
               (if decide (k ∈ chain (pre ++ [c]) rest) then Some Dir
                else o1)
               = (if decide (k ∈ chain pre (c :: rest)) then Some Dir
                  else o2)) as Hmerge.
    { intros o1 o2 k Hne Heq.
      destruct (decide (k = pre ++ [c])) as [-> | Hk].
      - rewrite decide_False by apply not_in_own_chain.
        rewrite (decide_True (P := _ ∈ chain pre (c :: rest)))
          by (simpl; by left).
        by apply Heq.
      - specialize (Htail k Hk). specialize (Hne Hk).
        do 2 destruct (decide _); naive_solver. }
    simpl. destruct (fs !! (pre ++ [c])) as [[| content] |] eqn:Hp.
    + destruct rest as [| d rest].
      * destruct exist_ok.
        -- exists fs. split; [done |]. intros k.
           destruct (decide _) as [Hin |]; [| done].
           apply list_elem_of_singleton in Hin as ->. done.
        -- specialize (Hfresh eq_refl ltac:(done)). congruence.
      * destruct (IH (pre ++ [c]) fs) as (fs' & Hrun & Hlook).
        { done. }
        { intros Hno _. rewrite <- app_assoc. by apply Hfresh. }
        exists fs'. split; [done |]. intros k. rewrite Hlook.
        apply Hmerge; [done | by intros ->].
    + done.
    + destruct (IH (pre ++ [c]) (<[pre ++ [c] := Dir]> fs))
        as (fs' & Hrun & Hlook).
      { apply Forall_forall. intros q Hq.
        rewrite lookup_insert_ne.
        - rewrite Forall_forall in Hfiles. by apply Hfiles.
        - intros <-. by apply not_in_own_chain in Hq. }
      { intros Hno Hrest. rewrite lookup_insert_ne.
        - rewrite <- app_assoc. by apply Hfresh.
        - intros Heq. apply (f_equal length) in Heq.
          rewrite !length_app in Heq. destruct rest; simpl in *; [done | lia]. }
      exists fs'. split.
      { by destruct rest. }
      intros k. rewrite Hlook. apply Hmerge.
      * intros Hk. by rewrite lookup_insert_ne.
      * intros ->. by rewrite lookup_insert_eq.
Qed.

End fs_facts.

Section fs_facts2.
Implicit Types (fs : gmap (list string) node) (p q k : list string).

Lemma no_file_in_list fs (l : list (list string)) :
  existsb (λ q, is_file (fs !! q)) l = false
  ↔ Forall (λ q, is_file (fs !! q) = false) l.
Proof.
  induction l as [| q l IH]; simpl.
  - split; [constructor | done].
  - rewrite orb_false_iff, Forall_cons, IH. done.
Qed.

Lemma wf_chain_dirs fs p x :
  wf_fs fs → fs !! p = Some x →
  Forall (λ q, fs !! q = Some Dir) (chain [] (removelast p)).
Proof.
  intros Hwf Hx. apply Forall_forall. intros q Hq.
  apply elem_of_chain in Hq as (r1 & r2 & Hne & Hrem & ->). simpl.
  destruct p as [| c p] using rev_ind; [by destruct r1 |].
  rewrite removelast_last in Hrem. subst p.
  rewrite <- app_assoc in Hx.
  pose proof (wf_above fs (r2 ++ [c]) Hwf r1 x Hx) as Hdir.
  rewrite node_at_nonempty in Hdir by done.
  apply Hdir. by destruct r2.
Qed.

Lemma rmtree_lookup fs p k :
  filter (λ kv : list string * node, ¬ p `prefix_of` kv.1) fs !! k =
  if decide (p `prefix_of` k) then None else fs !! k.
Proof.
  destruct (decide (p `prefix_of` k)) as [Hpre | Hpre].
  - apply map_lookup_filter_None. right. intros x _ Hno. by apply Hno.
  - destruct (fs !! k) as [x |] eqn:Hk.
    + by apply map_lookup_filter_Some.
    + apply map_lookup_filter_None. by left.
Qed.

End fs_facts2.

(** ** Where the module's files live *)

Section layout.
Variable env : Env.

Lemma locate_join1 (a n : string) :
  posixpath.plain n = true →
  locate env (posixpath.join a [n]) = locate env a ++ [n].
Proof. intros Hn. by apply resolve_join2. Qed.

Lemma truthy_join1 (a n : string) :
  pystr.truthy n = true → pystr.truthy (posixpath.join a [n]) = true.
Proof. apply truthy_join2. Qed.

Lemma locate_cache_folder :
  locate env (config.keops_cache_folder env)
  = locate env (home env) ++ [".cache"; "keops"].
Proof.
  unfold config.keops_cache_folder, posixpath.join, locate. simpl.
  rewrite !resolve_join2 by done. by rewrite <- app_assoc.
Qed.

Lemma cache_folder_not_root : locate env (config.keops_cache_folder env) ≠ [].
Proof. rewrite locate_cache_folder. by destruct (locate env (home env)). Qed.

Lemma truthy_cache_folder :
  pystr.truthy (config.keops_cache_folder env) = true.
Proof. by apply truthy_join2. Qed.

Lemma locate_version_file :
  locate env (config.version_cache_file env)
  = locate env (config.keops_cache_folder env) ++ ["keops_version"].
Proof. by apply locate_join1. Qed.

Lemma truthy_version_file :
  pystr.truthy (config.version_cache_file env) = true.
Proof. by apply truthy_join2. Qed.

End layout.

(** ** The cache folder (lines 21-39) *)

Section cache.
Variable env : Env.

(** C10: when the cache folder exists and holds no stamp file, the
    initialisation raises the error of the failed [open] and leaves the
    disk as it was; nothing is deleted or recreated.  On a tree whose
    cache folder is a directory the exception is [FileNotFoundError]. *)
Theorem unstamped_cache_raises w :
  is_Some (node_at (fs w) (cache_root env)) →
  fs w !! stamp_file env = None →
  ∃ e, config.init_cache env w = (Raise e, w)
       ∧ (e = FileNotFoundError ∨ e = NotADirectoryError)
       ∧ (wf_fs (fs w) → fs w !! cache_root env = Some Dir →
          e = FileNotFoundError).
Proof.
  unfold cache_root, stamp_file. intros Hroot Hstamp.
  exists (fsops.missing_error (fs w) (stamp_file env)).
  unfold stamp_file. split_and!.
  - unfold config.init_cache, os_path_exists, open_read. unfold_monad.
    rewrite truthy_cache_folder, truthy_version_file. simpl.
    rewrite bool_decide_eq_true_2 by done.
    unfold fsops.read. rewrite locate_version_file, node_at_snoc.
    rewrite <- locate_version_file, Hstamp. simpl.
    by rewrite set_fs_same.
  - unfold fsops.missing_error. destruct (file_above _ _); auto.
  - intros Hwf Hdir. unfold fsops.missing_error.
    assert (file_above (fs w) (locate env (config.version_cache_file env))
            = false) as ->; [| done].
    unfold file_above, ancestors. apply no_file_in_list.
    rewrite locate_version_file, removelast_last.
    pose proof cache_folder_not_root env as Hne.
    destruct (locate env (config.keops_cache_folder env))
      as [| c p _] using rev_ind; [done |].
    rewrite chain_snoc. apply Forall_app. split.
    + pose proof (wf_chain_dirs (fs w) (p ++ [c]) Dir Hwf Hdir) as Hdirs.
      rewrite removelast_last in Hdirs.
      eapply Forall_impl; [exact Hdirs |]. simpl. by intros q ->.
    + apply Forall_singleton. simpl. by rewrite Hdir.
Qed.

End cache.

Lemma unstamped_cache_raises_witness :
  ∃ e, config.init_cache sample.linux_cpu (fresh_world sample.unstamped_disk)
       = (Raise e, fresh_world sample.unstamped_disk)
       ∧ (e = FileNotFoundError ∨ e = NotADirectoryError)
       ∧ (wf_fs sample.unstamped_disk →
          sample.unstamped_disk !! cache_root sample.linux_cpu = Some Dir →
          e = FileNotFoundError).
Proof.
  apply (unstamped_cache_raises sample.linux_cpu
           (fresh_world sample.unstamped_disk)).
  - vm_compute. eauto.
  - vm_compute. reflexivity.
Defined.

Section fs_facts3.
Implicit Types (fs : gmap (list string) node) (p q k : list string).

Lemma in_chain_prefix k p : k ∈ chain [] p → k `prefix_of` p.
Proof.
  rewrite elem_of_chain. intros (r1 & r2 & _ & -> & ->). by exists r2.
Qed.

Lemma self_in_chain p : p ≠ [] → p ∈ chain [] p.
Proof.
  intros Hp. apply elem_of_chain. exists p, []. by rewrite app_nil_r.
Qed.

(** Creating a folder that is not there and writing one file in it. *)
Lemma stamp_fresh_folder fs root n v :
  root ≠ [] →
  (∀ k, root `prefix_of` k → fs !! k = None) →
  Forall (λ q, is_file (fs !! q) = false) (chain [] root) →
  ∃ fs2,
    fsops.makedirs false fs root = (Ok tt, fs2)
    ∧ fsops.write fs2 (root ++ [n]) v
      = (Ok tt, <[root ++ [n] := File v]> fs2)
    ∧ fs2 !! root = Some Dir
    ∧ (∀ k, root `prefix_of` k → k ≠ root → fs2 !! k = None)
    ∧ (∀ k, ¬ k `prefix_of` root → fs2 !! k = fs !! k).
Proof.
  intros Hroot Hfree Hfiles.
  destruct (makedirs_walk_ok false root [] fs Hfiles) as (fs2 & Hrun & Hlook).
  { intros _ _. by apply Hfree. }
  assert (fs2 !! root = Some Dir) as Hdir.
  { rewrite Hlook. by rewrite decide_True by by apply self_in_chain. }
  assert (∀ k, root `prefix_of` k → k ≠ root → fs2 !! k = None) as Hunder.
  { intros k Hk Hne. rewrite Hlook. rewrite decide_False; [by apply Hfree |].
    intros Hin%in_chain_prefix. apply Hne. by apply (anti_symm prefix). }
  exists fs2. split_and!; try done.
  - unfold fsops.makedirs. by destruct root.
  - apply write_succeeds.
    + rewrite node_at_snoc, Hunder; [done | by exists [n] |].
      intros Heq. apply (f_equal length) in Heq.
      rewrite length_app in Heq. simpl in Heq. lia.
    + rewrite removelast_last. by rewrite node_at_nonempty.
  - intros k Hk. rewrite Hlook. rewrite decide_False; [done |].
    by intros Hin%in_chain_prefix.
Qed.

End fs_facts3.

Section cache2.
Variable env : Env.

(** C2: on a tree-shaped disk, when the stamp file of the cache folder
    holds a version other than the running one, or when the cache folder
    does not exist (and no file is in the way of creating it), the
    initialisation returns and leaves a cache folder that holds the
    stamp file with exactly the running version and nothing else; what
    lies outside the folder and its ancestors is untouched. *)
Theorem cache_root_reinitialised w :
  wf_fs (fs w) →
  (∃ c, fs w !! stamp_file env = Some (File c)
        ∧ pystr.rstrip c ≠ keops_version env)
  ∨ (fs w !! cache_root env = None
     ∧ file_above (fs w) (cache_root env) = false) →
  ∃ disk',
    config.init_cache env w = (Ok tt, set_fs disk' w)
    ∧ disk' !! cache_root env = Some Dir
    ∧ disk' !! stamp_file env = Some (File (keops_version env))
    ∧ (∀ k, cache_root env `prefix_of` k → k ≠ cache_root env →
            k ≠ stamp_file env → disk' !! k = None)
    ∧ (∀ k, ¬ cache_root env `prefix_of` k →
            ¬ k `prefix_of` cache_root env → disk' !! k = fs w !! k).
Proof.
  unfold cache_root, stamp_file. rewrite locate_version_file.
  pose proof (cache_folder_not_root env) as Hne.
  pose proof (truthy_cache_folder env) as Htr.
  pose proof (truthy_version_file env) as Htv.
  pose proof (locate_version_file env) as Hlv.
  set (root := locate env (config.keops_cache_folder env)) in *.
  intros Hwf [(c & Hstamp & Hdiff) | [Habsent Habove]].
  - (* a stale stamp *)
    assert (fs w !! root = Some Dir) as Hdir.
    { rewrite <- (node_at_nonempty _ _ Hne).
      by apply (wf_above (fs w) ["keops_version"] Hwf root (File c)). }
    set (fs1 := filter (λ kv : list string * node, ¬ root `prefix_of` kv.1)
                  (fs w)).
    destruct (stamp_fresh_folder fs1 root "keops_version" (keops_version env))
      as (fs2 & Hmk & Hwr & Hdir2 & Hunder & Hout); [done | | |].
    { intros k Hk. unfold fs1. rewrite rmtree_lookup. by rewrite decide_True. }
    { apply Forall_forall. intros q Hq. unfold fs1. rewrite rmtree_lookup.
      case_decide; [done |].
      apply elem_of_chain in Hq as (r1 & r2 & Hr1 & Hroot & ->). simpl.
      destruct r2 as [| d r2].
      { exfalso. rewrite app_nil_r in Hroot. subst r1. by apply H. }
      assert (node_at (fs w) r1 = Some Dir) as Hq.
      { apply (wf_above (fs w) (d :: r2) Hwf r1 Dir); [| done].
        by rewrite <- Hroot. }
      rewrite node_at_nonempty in Hq by done. by rewrite Hq. }
    exists (<[root ++ ["keops_version"] := File (keops_version env)]> fs2).
    split_and!.
    + unfold config.init_cache, os_path_exists, open_read, shutil_rmtree,
        os_makedirs, open_write.
      unfold_monad. rewrite Htr, Htv. fold root. rewrite Hlv.
      rewrite (node_at_nonempty _ _ Hne), Hdir.
      cbn [andb bool_decide decide_rel fst snd].
      rewrite bool_decide_eq_true_2 by done.
      unfold fsops.read. rewrite node_at_snoc, Hstamp.
      apply String.eqb_neq in Hdiff. rewrite Hdiff.
      cbn [negb fs set_fs]. unfold fsops.rmtree.
      rewrite (node_at_nonempty _ _ Hne), Hdir. fold fs1.
      cbn [fs set_fs]. rewrite Hmk. cbn [fs set_fs]. rewrite Hwr. done.
    + rewrite lookup_insert_ne; [done |].
      intros Heq. apply (f_equal length) in Heq.
      rewrite length_app in Heq. simpl in Heq. lia.
    + by rewrite lookup_insert_eq.
    + intros k Hk Hk1 Hk2. rewrite lookup_insert_ne by done. by apply Hunder.
    + intros k Hk1 Hk2. rewrite lookup_insert_ne.
      * rewrite Hout by done. unfold fs1. rewrite rmtree_lookup.
        by rewrite decide_False.
      * intros <-. apply Hk1. by exists ["keops_version"].
  - (* no cache folder yet *)
    destruct (stamp_fresh_folder (fs w) root "keops_version"
                (keops_version env))
      as (fs2 & Hmk & Hwr & Hdir2 & Hunder & Hout); [done | | |].
    { intros k Hk. by apply (wf_below_absent (fs w) root). }
    { destruct root as [| d r _] using rev_ind; [done |].
      rewrite chain_snoc. apply Forall_app. split.
      - unfold file_above, ancestors in Habove.
        rewrite removelast_last in Habove. by apply no_file_in_list.
      - apply Forall_singleton. simpl. by rewrite Habsent. }
    exists (<[root ++ ["keops_version"] := File (keops_version env)]> fs2).
    split_and!.
    + unfold config.init_cache, os_path_exists, open_read, shutil_rmtree,
        os_makedirs, open_write.
      unfold_monad. rewrite Htr, Htv. fold root. rewrite Hlv.
      rewrite (node_at_nonempty _ _ Hne), Habsent.
      rewrite bool_decide_eq_false_2 by (by intros [? ?]).
      cbn [andb fs set_fs]. rewrite Hmk. cbn [fs set_fs]. rewrite Hwr. done.
    + rewrite lookup_insert_ne; [done |].
      intros Heq. apply (f_equal length) in Heq.
      rewrite length_app in Heq. simpl in Heq. lia.
    + by rewrite lookup_insert_eq.
    + intros k Hk Hk1 Hk2. rewrite lookup_insert_ne by done. by apply Hunder.
    + intros k Hk1 Hk2. rewrite lookup_insert_ne.
      * by rewrite Hout.
      * intros <-. apply Hk1. by exists ["keops_version"].
Qed.

End cache2.

Section fs_facts4.
Implicit Types (fs : gmap (list string) node) (p q k : list string).

Lemma makedirs_walk_ok_inv rest : ∀ pre fs fs',
  fsops.makedirs_walk true pre rest fs = (Ok tt, fs') →
  rest ≠ [] → fs' !! (pre ++ rest) = Some Dir.
Proof.
  induction rest as [| c rest IH]; intros pre fs fs' Hrun Hne; [done |].
  simpl in Hrun.
  destruct (fs !! (pre ++ [c])) as [[| content] |] eqn:Hp.
  - destruct rest as [| d rest].
    + by simplify_eq.
    + replace (pre ++ c :: d :: rest) with ((pre ++ [c]) ++ d :: rest)
        by (by rewrite <- app_assoc).
      by eapply IH.
  - by destruct rest.
  - destruct rest as [| d rest].
    + simpl in Hrun. simplify_eq. by rewrite lookup_insert_eq.
    + replace (pre ++ c :: d :: rest) with ((pre ++ [c]) ++ d :: rest)
        by (by rewrite <- app_assoc).
      by eapply IH.
Qed.

Lemma makedirs_ok_dir fs p fs' :
  fsops.makedirs true fs p = (Ok tt, fs') → node_at fs' p = Some Dir.
Proof.
  destruct p as [| c p]; [done |]. intros Hrun.
  rewrite node_at_nonempty by done.
  by apply (makedirs_walk_ok_inv (c :: p) [] fs fs').
Qed.

End fs_facts4.

Section build_folder.
Variable env : Env.

Lemma save_file_snoc :
  save_file env = cache_root env ++ ["build_folder_location.txt"].
Proof. by apply locate_join1. Qed.

Lemma truthy_save_file :
  pystr.truthy
    (posixpath.join (config.keops_cache_folder env)
       ["build_folder_location.txt"]) = true.
Proof. by apply truthy_join2. Qed.

Lemma launcher_file_snoc folder :
  launcher_file env folder = locate env folder ++ ["keops_nvrtc.so"].
Proof. by apply locate_join1. Qed.

Lemma node_at_save_file fs : node_at fs (save_file env) = fs !! save_file env.
Proof. by rewrite save_file_snoc, node_at_snoc. Qed.

Lemma choose_build_folder_run path read_save_file w :
  config.choose_build_folder env path read_save_file w
  = (Ok (resolved_build_path env path read_save_file (fs w)), w).
Proof.
  unfold config.choose_build_folder, resolved_build_path, os_path_isfile,
    open_read.
  unfold_monad. rewrite truthy_save_file. fold (save_file env).
  assert ((if read_save_file
                && (true && is_file (node_at (fs w) (save_file env)))
           then (fsops.read (fs w) (save_file env), set_fs (fs w) w)
           else (Ok (config.default_build_path env), w))
          = (Ok match (if read_save_file then fs w !! save_file env
                       else None) with
                | Some (File saved) => saved
                | _ => config.default_build_path env
                end, w)) as Hfallback.
  { destruct read_save_file; [| done]. cbn [andb]. unfold fsops.read.
    rewrite node_at_save_file.
    destruct (fs w !! _) as [[| saved] |]; cbn; [done | | done].
    by rewrite set_fs_same. }
  destruct path as [p |]; cbn.
  - destruct (pystr.truthy p); cbn; [done |].
    destruct (read_save_file && _); apply Hfallback.
  - destruct (read_save_file && _); apply Hfallback.
Qed.


Lemma truthy_launcher folder :
  pystr.truthy (posixpath.join folder ["keops_nvrtc.so"]) = true.
Proof. by apply truthy_join2. Qed.

(** A successful [use_build_folder] went through a successful
    [makedirs] and a successful write of the saved location. *)
Lemma use_build_folder_inv chosen reset_all w u w' :
  config.use_build_folder env chosen reset_all w = (Ok u, w') →
  ∃ fs1,
    pystr.truthy chosen = true
    ∧ fsops.makedirs true (fs w) (locate env chosen) = (Ok tt, fs1)
    ∧ fsops.write fs1 (save_file env) chosen
      = (Ok tt, <[save_file env := File chosen]> fs1).
Proof.
  unfold config.use_build_folder, os_makedirs, open_write.
  unfold_monad. rewrite truthy_save_file. fold (save_file env).
  destruct (pystr.truthy chosen); [| done]. cbn [fs set_fs set_build_path].
  destruct (fsops.makedirs true (fs w) (locate env chosen))
    as [[[] | e] fs1]; [| done].
  cbn [fs set_fs set_build_path].
  destruct (fsops.write fs1 (save_file env) chosen) as [[[] | e] fs2] eqn:Hwr;
    [| done].
  intros _. exists fs1. split_and!; try done.
  by destruct (write_ok _ _ _ _ Hwr) as (-> & _).
Qed.

(** What [use_build_folder] leaves behind once the folder could be
    created and the saved location written. *)
Lemma use_build_folder_run chosen reset_all w fs1 :
  pystr.truthy chosen = true →
  fsops.makedirs true (fs w) (locate env chosen) = (Ok tt, fs1) →
  fsops.write fs1 (save_file env) chosen
  = (Ok tt, <[save_file env := File chosen]> fs1) →
  ∃ w',
    config.use_build_folder env chosen reset_all w = (Ok tt, w')
    ∧ build_path w' = chosen
    ∧ fs w' !! save_file env = Some (File chosen)
    ∧ node_at (fs w') (locate env chosen) = Some Dir
    ∧ if reset_all then
        handles (registry w') = ∅
        ∧ save_folder (registry w') = chosen
        ∧ (use_cuda w = true →
           is_Some (node_at (fs w') (launcher_file env chosen)))
      else registry w' = registry w.
Proof.
  intros Htruthy Hmk Hwr.
  pose proof (makedirs_ok_dir _ _ _ Hmk) as Hdir.
  destruct (write_ok _ _ _ _ Hwr) as (_ & Hnotdir & _).
  assert (save_file env ≠ locate env chosen) as Hne by congruence.
  set (fs2 := <[save_file env := File chosen]> fs1) in *.
  assert (node_at fs2 (locate env chosen) = Some Dir) as Hdir2.
  { destruct (locate env chosen) as [| c p] eqn:Hloc; [done |].
    unfold fs2. simpl. by rewrite lookup_insert_ne. }
  assert (fs2 !! save_file env = Some (File chosen)) as Hsaved.
  { unfold fs2. by rewrite lookup_insert_eq. }
  unfold config.use_build_folder, os_makedirs, open_write.
  unfold_monad. rewrite truthy_save_file, Htruthy. fold (save_file env).
  cbn [fs set_fs set_build_path]. rewrite Hmk.
  cbn [fs set_fs set_build_path]. rewrite Hwr.
  destruct reset_all.
  - unfold get_keops_dll.reset, Gpu_link_compile.compile_jit_compile_dll,
      Gpu_link_compile.jit_compile_dll, os_path_exists, open_write.
    unfold_monad.
    cbn [fs set_fs set_build_path build_path use_cuda set_registry].
    destruct (use_cuda w) eqn:Hcuda;
      cbn [fs set_fs set_build_path build_path use_cuda set_registry].
    + rewrite truthy_launcher. fold (launcher_file env chosen).
      cbn [andb].
      destruct (bool_decide (is_Some (node_at fs2 (launcher_file env chosen))))
        eqn:Hthere; cbn [negb].
      * apply bool_decide_eq_true_1 in Hthere.
        eexists. split; [reflexivity |]. cbn. split_and!; done.
      * apply bool_decide_eq_false_1 in Hthere.
        cbn [fs set_fs set_build_path build_path use_cuda set_registry].
        rewrite truthy_launcher. fold (launcher_file env chosen).
        cbn [fs set_fs set_build_path set_registry].
        rewrite write_succeeds.
        -- eexists. split; [reflexivity |]. cbn.
           rewrite launcher_file_snoc in *.
           assert (locate env chosen ++ ["keops_nvrtc.so"] ≠ save_file env).
           { rewrite save_file_snoc. intros Heq.
             by apply app_inj_tail in Heq as [_ ?]. }
           split_and!; try done.
           ++ by rewrite lookup_insert_ne.
           ++ destruct (locate env chosen) as [| c p] eqn:Hloc; [done |].
              simpl. rewrite lookup_insert_ne; [done |].
              intros Heq. apply (f_equal length) in Heq. simpl in Heq.
              rewrite length_app in Heq. simpl in Heq. lia.
           ++ intros _. rewrite node_at_snoc, lookup_insert_eq. eauto.
        -- intros Heq. apply Hthere. rewrite Heq. eauto.
        -- by rewrite launcher_file_snoc, removelast_last.
    + eexists. split; [reflexivity |]. cbn. split_and!; done.
  - eexists. split; [reflexivity |]. cbn. split_and!; done.
Qed.

End build_folder.

Section build_folder2.
Variable env : Env.

Lemma set_build_folder_eq path read_save_file reset_all w :
  config.set_build_folder env path read_save_file reset_all w
  = config.use_build_folder env
      (resolved_build_path env path read_save_file (fs w)) reset_all w.
Proof.
  unfold config.set_build_folder, mbind, M_bind, bind.
  by rewrite choose_build_folder_run.
Qed.

Lemma modify_establishes {A} (P : World → Prop) f (k : unit → M A) w :
  P (f w) → (∀ u, invariant P (k u)) → P ((modify f ≫= k) w).2.
Proof. intros Hf Hk. by apply (Hk tt). Qed.

Lemma use_build_folder_path chosen reset_all w :
  build_path (config.use_build_folder env chosen reset_all w).2 = chosen.
Proof.
  unfold config.use_build_folder.
  apply (modify_establishes (λ w, build_path w = chosen)); [done |].
  intros _. invariant_auto; done.
Qed.

Lemma makedirs_succeeds fs p :
  Forall (λ q, is_file (fs !! q) = false) (chain [] p) →
  ∃ fs1, fsops.makedirs true fs p = (Ok tt, fs1)
         ∧ ∀ k, fs1 !! k =
                if decide (k ∈ chain [] p) then Some Dir else fs !! k.
Proof.
  intros Hfiles.
  destruct (makedirs_walk_ok true p [] fs Hfiles) as (fs1 & Hrun & Hlook);
    [done |].
  exists fs1. split; [| done]. unfold fsops.makedirs.
  destruct p; [| done]. simpl in Hrun. by simplify_eq.
Qed.

(** Nothing in the way: the cache folder is there, no file sits on the
    path to the chosen folder, and the saved-location file is neither a
    directory nor on that path. *)
Lemma use_build_folder_succeeds chosen w :
  pystr.truthy chosen = true →
  Forall (λ q, is_file (fs w !! q) = false) (chain [] (locate env chosen)) →
  fs w !! cache_root env = Some Dir →
  fs w !! save_file env ≠ Some Dir →
  ¬ save_file env `prefix_of` locate env chosen →
  ∃ fs1,
    fsops.makedirs true (fs w) (locate env chosen) = (Ok tt, fs1)
    ∧ fsops.write fs1 (save_file env) chosen
      = (Ok tt, <[save_file env := File chosen]> fs1).
Proof.
  intros Htruthy Hfiles Hroot Hsave Hpre.
  destruct (makedirs_succeeds (fs w) (locate env chosen) Hfiles)
    as (fs1 & Hmk & Hlook).
  exists fs1. split; [done |]. apply write_succeeds.
  - rewrite node_at_save_file, Hlook. rewrite decide_False; [done |].
    by intros Hin%in_chain_prefix.
  - rewrite save_file_snoc, removelast_last.
    unfold cache_root in *.
    rewrite (node_at_nonempty _ _ (cache_folder_not_root env)), Hlook.
    by case_decide.
Qed.

(** C4, amended: [set_build_folder] settles on a non-empty given path
    as it is, else on the content of the saved-location file when
    reading it is requested and it is a file, else on the default
    subfolder of the cache folder; [build_path] is set to that folder
    in every case; when the call returns, the folder is a directory and
    the saved-location file holds its path; and the call does return
    when nothing on the disk is in the way. *)
Theorem build_folder_precedence path read_save_file reset_all w :
  let chosen := resolved_build_path env path read_save_file (fs w) in
  let r := config.set_build_folder env path read_save_file reset_all w in
  build_path r.2 = chosen
  ∧ (r.1 = Ok tt →
     node_at (fs r.2) (locate env chosen) = Some Dir
     ∧ fs r.2 !! save_file env = Some (File chosen))
  ∧ (pystr.truthy chosen = true →
     Forall (λ q, is_file (fs w !! q) = false)
       (chain [] (locate env chosen)) →
     fs w !! cache_root env = Some Dir →
     fs w !! save_file env ≠ Some Dir →
     ¬ save_file env `prefix_of` locate env chosen →
     r.1 = Ok tt).
Proof.
  intros chosen r. subst r. rewrite set_build_folder_eq. fold chosen.
  split_and!.
  - apply use_build_folder_path.
  - intros Hok.
    destruct (config.use_build_folder env chosen reset_all w)
      as [[[] | e] w'] eqn:Hrun; [| done].
    destruct (use_build_folder_inv env _ _ _ _ _ Hrun)
      as (fs1 & Htruthy & Hmk & Hwr).
    destruct (use_build_folder_run env chosen reset_all w fs1 Htruthy Hmk Hwr)
      as (w'' & Hrun' & _ & Hsaved & Hdir & _).
    rewrite Hrun in Hrun'. by simplify_eq.
  - intros Htruthy Hfiles Hroot Hsave Hpre.
    destruct (use_build_folder_succeeds chosen w
                Htruthy Hfiles Hroot Hsave Hpre) as (fs1 & Hmk & Hwr).
    destruct (use_build_folder_run env chosen reset_all w fs1 Htruthy Hmk Hwr)
      as (w' & -> & _).
    done.
Qed.

(** C3, amended: a call of [set_build_folder] with [reset_all] that
    returns leaves the registry without any loaded handle and writing
    to the new build folder, and in GPU mode the JIT launcher exists in
    that folder; such a call returns when nothing on the disk is in the
    way.  Without [reset_all] the registry is left as it was. *)
Theorem reset_all_drops_handles path read_save_file w :
  let chosen := resolved_build_path env path read_save_file (fs w) in
  let r := config.set_build_folder env path read_save_file true w in
  (r.1 = Ok tt →
   handles (registry r.2) = ∅
   ∧ save_folder (registry r.2) = build_path r.2
   ∧ (use_cuda w = true →
      is_Some (node_at (fs r.2) (launcher_file env (build_path r.2)))))
  ∧ (pystr.truthy chosen = true →
     Forall (λ q, is_file (fs w !! q) = false)
       (chain [] (locate env chosen)) →
     fs w !! cache_root env = Some Dir →
     fs w !! save_file env ≠ Some Dir →
     ¬ save_file env `prefix_of` locate env chosen →
     r.1 = Ok tt)
  ∧ registry (config.set_build_folder env path read_save_file false w).2
    = registry w.
Proof.
  intros chosen r. subst r. rewrite !set_build_folder_eq. fold chosen.
  split_and!.
  - intros Hok.
    destruct (config.use_build_folder env chosen true w)
      as [[[] | e] w'] eqn:Hrun; [| done].
    destruct (use_build_folder_inv env _ _ _ _ _ Hrun)
      as (fs1 & Htruthy & Hmk & Hwr).
    destruct (use_build_folder_run env chosen true w fs1 Htruthy Hmk Hwr)
      as (w'' & Hrun' & Hbp & _ & _ & Hempty & Hfolder & Hjit).
    rewrite Hrun in Hrun'. simplify_eq. simpl. by rewrite Hbp.
  - intros Htruthy Hfiles Hroot Hsave Hpre.
    destruct (use_build_folder_succeeds chosen w
                Htruthy Hfiles Hroot Hsave Hpre) as (fs1 & Hmk & Hwr).
    destruct (use_build_folder_run env chosen true w fs1 Htruthy Hmk Hwr)
      as (w' & -> & _).
    done.
  - assert (invariant (λ w', registry w' = registry w)
              (config.use_build_folder env chosen false)) as Hinv.
    { unfold config.use_build_folder. invariant_auto; done. }
    by apply Hinv.
Qed.

End build_folder2.

Lemma cache_root_reinitialised_witness :
  ∃ disk',
    config.init_cache sample.linux_cpu (fresh_world sample.stale_disk)
    = (Ok tt, set_fs disk' (fresh_world sample.stale_disk))
    ∧ disk' !! cache_root sample.linux_cpu = Some Dir
    ∧ disk' !! stamp_file sample.linux_cpu = Some (File "1.1")
    ∧ (∀ k, cache_root sample.linux_cpu `prefix_of` k →
            k ≠ cache_root sample.linux_cpu →
            k ≠ stamp_file sample.linux_cpu → disk' !! k = None)
    ∧ (∀ k, ¬ cache_root sample.linux_cpu `prefix_of` k →
            ¬ k `prefix_of` cache_root sample.linux_cpu →
            disk' !! k = sample.stale_disk !! k).
Proof.
  apply (cache_root_reinitialised sample.linux_cpu
           (fresh_world sample.stale_disk)).
  - apply (bool_decide_unpack _). vm_compute. exact I.
  - left. exists "1.0". split; [vm_compute; reflexivity |].
    vm_compute. discriminate.
Defined.

(** C4, as stated, fails for the empty path: it is given, and the default
    folder is used instead of it. *)
Lemma empty_path_not_used_verbatim :
  let r :=
    config.set_build_folder sample.linux_cpu (Some "") false false
      (fresh_world sample.new_disk) in
  r.1 = Ok tt
  ∧ build_path r.2 = "/home/u/.cache/keops/build"
  ∧ build_path r.2 ≠ "".
Proof. vm_compute. split_and!; [reflexivity | reflexivity | discriminate]. Qed.

Lemma build_folder_precedence_witness :
  let env := sample.linux_gpu in
  let w := fresh_world sample.relocated_disk in
  let r := config.set_build_folder env None true false w in
  build_path r.2 = "/data/keops"
  ∧ node_at (fs r.2) ["data"; "keops"] = Some Dir
  ∧ fs r.2 !! save_file env = Some (File "/data/keops").
Proof.
  intros env w r.
  destruct (build_folder_precedence env None true false w)
    as (Hpath & Hdone & Hreturns).
  assert (r.1 = Ok tt) as Hok.
  { apply Hreturns.
    - reflexivity.
    - apply (bool_decide_unpack _). vm_compute. exact I.
    - vm_compute. reflexivity.
    - vm_compute. discriminate.
    - apply (bool_decide_unpack _). vm_compute. exact I. }
  destruct (Hdone Hok) as [Hdir Hsaved].
  split_and!; [exact Hpath | exact Hdir | exact Hsaved].
Defined.

(** C3, as stated, fails for a call without [reset_all]: the build path
    changes and the loaded handle stays in the registry. *)
Lemma handles_survive_without_reset_all :
  let r :=
    config.set_build_folder sample.linux_gpu (Some "/new") false false
      sample.busy_world in
  r.1 = Ok tt
  ∧ build_path sample.busy_world = "/data/keops"
  ∧ build_path r.2 = "/new"
  ∧ handles (registry sample.busy_world) !! "sig_a" = Some 0
  ∧ handles (registry r.2) !! "sig_a" = Some 0.
Proof. vm_compute. split_and!; reflexivity. Qed.

Lemma reset_all_drops_handles_witness :
  let env := sample.linux_gpu in
  let r := config.set_build_folder env (Some "/new") false true
             sample.busy_world in
  handles (registry r.2) = ∅
  ∧ save_folder (registry r.2) = build_path r.2
  ∧ is_Some (node_at (fs r.2) (launcher_file env (build_path r.2))).
Proof.
  intros env r.
  destruct (reset_all_drops_handles env (Some "/new") false sample.busy_world)
    as (Hdone & Hreturns & _).
  assert (r.1 = Ok tt) as Hok.
  { apply Hreturns.
    - reflexivity.
    - apply (bool_decide_unpack _). vm_compute. exact I.
    - vm_compute. reflexivity.
    - vm_compute. discriminate.
    - apply (bool_decide_unpack _). vm_compute. exact I. }
  destruct (Hdone Hok) as (Hempty & Hfolder & Hjit).
  split_and!; [exact Hempty | exact Hfolder | apply Hjit; reflexivity].
Defined.

(** ** The recorded launcher path (line 73) *)

Section jit_binary.
Variable env : Env.

Lemma run_call_keeps_jit_binary c v :
  ∀ w, jit_binary w = v → jit_binary (run_call env c w) = v.
Proof.
  destruct c; unfold run_call, registry_model.serve; intros w.
  - exact (set_build_folder_keeps_jit_binary env _ _ _ v w).
  - assert (invariant (λ w, jit_binary w = v) (config.init_cudalibs env))
      as Hinv by (invariant_auto; done).
    apply Hinv.
  - assert (invariant (λ w, jit_binary w = v)
              (registry_model.get_kernel env (registry_model.req_signature r)
                 (registry_model.req_source r)
                 (registry_model.req_compiles r)
                 (registry_model.req_loads r)))
      as Hinv by (invariant_auto; done).
    apply Hinv.
  - assert (invariant (λ w, jit_binary w = v)
              (get_keops_dll.reset new_save_folder))
      as Hinv by (invariant_auto; done).
    apply Hinv.
Qed.

Lemma init_gpu_config_keeps_launcher v w :
  (use_cuda w = true → jit_binary w = v) →
  let w' := (config.init_gpu_config env w).2 in
  (use_cuda w' = true → jit_binary w' = v) ∧ build_path w' = build_path w.
Proof.
  intros Hw. unfold config.init_gpu_config. unfold_monad.
  destruct (use_cuda w) eqn:Hcuda; simpl; rewrite ?Hcuda; split; auto; done.
Qed.

(** C9: no operation of the process changes [jit_binary], whatever it
    does to [build_path]; after an import that enabled the GPU,
    [jit_binary] is the launcher path under the build folder of import
    time, and it stays that. *)
Theorem jit_binary_not_relocated :
  (∀ cs w, jit_binary (run_calls env cs w) = jit_binary w)
  ∧ (∀ disk w0,
       config.import_module env (fresh_world disk) = (Ok tt, w0) →
       use_cuda w0 = true →
       jit_binary w0
       = Some (posixpath.join (build_path w0) ["keops_nvrtc.so"])).
Proof.
  split.
  - intros cs. induction cs as [| c cs IH]; intros w; simpl; [done |].
    rewrite IH. by apply run_call_keeps_jit_binary.
  - intros disk w0 Himport Hcuda.
    unfold config.import_module in Himport.
    do 10 (apply bind_ok_inv in Himport as (? & ? & ? & Himport)).
    unfold modify in Himport. injection Himport as <-.
    repeat match goal with
           | H : modify _ _ = (_, _) |- _ =>
               unfold modify in H; injection H as <- <-
           | H : gets _ _ = (_, _) |- _ =>
               unfold gets in H; injection H as <- <-
           end.
    match goal with
    | H1 : config.init_cpp_flags env ?wa = (_, ?wb),
      H2 : config.probe_cuda env ?wb = (_, ?wc),
      H3 : config.init_gpu_config env ?wc = (_, ?wd) |- _ =>
        set (v := jit_binary wa) in *;
        assert (invariant (λ w, (use_cuda w = true → jit_binary w = v)
                                ∧ build_path w = build_path wa)
                  (config.init_cpp_flags env)) as Hflags
          by (invariant_auto; done);
        assert (invariant (λ w, (use_cuda w = true → jit_binary w = v)
                                ∧ build_path w = build_path wa)
                  (config.probe_cuda env)) as Hprobe
          by (invariant_auto; try done; by intros [? ?]);
        pose proof (Hflags wa (conj (λ _, eq_refl) eq_refl)) as Hb;
        rewrite H1 in Hb; simpl in Hb;
        pose proof (Hprobe wb Hb) as Hc;
        rewrite H2 in Hc; simpl in Hc;
        destruct Hc as [Hc1 Hc2];
        pose proof (init_gpu_config_keeps_launcher v wc Hc1) as Hd;
        rewrite H3 in Hd; simpl in Hd; destruct Hd as [Hd1 Hd2]
    end.
    simpl in *. rewrite (Hd1 Hcuda). subst v. simpl.
    by rewrite Hd2, Hc2.
Qed.

End jit_binary.

Lemma jit_binary_not_relocated_witness :
  let env := sample.linux_gpu in
  let w0 := (config.import_module env (fresh_world sample.relocated_disk)).2 in
  let w1 := run_calls env [SetBuildFolder (Some "/new") false true] w0 in
  jit_binary w1 = jit_binary w0
  ∧ build_path w0 = "/data/keops"
  ∧ build_path w1 = "/new"
  ∧ jit_binary w0 = Some (posixpath.join (build_path w0) ["keops_nvrtc.so"]).
Proof.
  intros env w0 w1.
  destruct (jit_binary_not_relocated env) as [Hframe Himport].
  split_and!.
  - apply Hframe.
  - vm_compute. reflexivity.
  - vm_compute. reflexivity.
  - apply (Himport sample.relocated_disk w0).
    + vm_compute. reflexivity.
    + vm_compute. reflexivity.
Defined.

(** * Further properties of the module *)

(** ** The stamp of a current cache *)

Section stamp.
Variable env : Env.

Lemma rstrip_all_space (ws : string) :
  all_space ws = true → pystr.rstrip ws = "".
Proof.
  induction ws as [| c ws IH]; [done |]. simpl.
  intros [Hc Hws]%andb_prop. by rewrite IH, Hc.
Qed.

Lemma rstrip_trailing_space (v ws : string) :
  all_space ws = true → pystr.rstrip (v +:+ ws) = pystr.rstrip v.
Proof.
  intros Hws. induction v as [| c v IH].
  - rewrite append_empty_l. by apply rstrip_all_space.
  - rewrite append_cons. simpl. by rewrite IH.
Qed.

(** The cache folder is there and its stamp reads as the running
    version: lines 22-32 leave [test_init_cache] false and nothing is
    done. *)
Lemma init_cache_current w c :
  is_Some (fs w !! cache_root env) →
  fs w !! stamp_file env = Some (File c) →
  pystr.rstrip c = keops_version env →
  config.init_cache env w = (Ok tt, w).
Proof.
  unfold cache_root, stamp_file. intros Hroot Hstamp Hsame.
  unfold config.init_cache, os_path_exists, open_read. unfold_monad.
  rewrite truthy_cache_folder, truthy_version_file.
  rewrite (node_at_nonempty _ _ (cache_folder_not_root env)).
  rewrite bool_decide_eq_true_2 by done. cbn [andb].
  unfold fsops.read. rewrite locate_version_file, node_at_snoc.
  rewrite <- locate_version_file, Hstamp, Hsame, String.eqb_refl.
  cbn. by rewrite set_fs_same.
Qed.

(** X1: a cache folder whose stamp file holds the running version,
    followed by any amount of trailing whitespace (a final newline,
    say), counts as current: the initialisation returns and leaves the
    whole world as it was. *)
Theorem current_stamp_is_kept w ws :
  is_Some (fs w !! cache_root env) →
  pystr.rstrip (keops_version env) = keops_version env →
  all_space ws = true →
  fs w !! stamp_file env = Some (File (keops_version env +:+ ws)) →
  config.init_cache env w = (Ok tt, w).
Proof.
  intros Hroot Hclean Hws Hstamp.
  apply (init_cache_current w (keops_version env +:+ ws)); [done | done |].
  by rewrite rstrip_trailing_space.
Qed.

End stamp.

Lemma current_stamp_is_kept_witness :
  let w := fresh_world sample.relocated_disk in
  config.init_cache sample.linux_cpu
    (set_fs (<[stamp_file sample.linux_cpu := File "1.1
"]> sample.relocated_disk) w)
  = (Ok tt,
     set_fs (<[stamp_file sample.linux_cpu := File "1.1
"]> sample.relocated_disk) w).
Proof.
  intros w.
  apply (current_stamp_is_kept sample.linux_cpu _ "
").
  - vm_compute. eauto.
  - reflexivity.
  - reflexivity.
  - vm_compute. reflexivity.
Defined.

(** ** More facts on [os.makedirs] *)

Section makedirs_facts.
Implicit Types (fs : gmap (list string) node) (p q k : list string).

(** The walk changes nothing but missing entries of its chain. *)
Lemma makedirs_walk_preserves exist_ok rest : ∀ pre fs k x,
  fs !! k = Some x →
  (fsops.makedirs_walk exist_ok pre rest fs).2 !! k = Some x.
Proof.
  induction rest as [| c rest IH]; intros pre fs k x Hk; [done |].
  simpl. destruct (fs !! (pre ++ [c])) as [[| content] |] eqn:Hp.
  - destruct rest as [| d rest]; [by destruct exist_ok |]. by apply IH.
  - by destruct rest.
  - assert (<[pre ++ [c] := Dir]> fs !! k = Some x) as Hk'.
    { rewrite lookup_insert_ne; [done |]. intros <-. congruence. }
    destruct rest; by apply IH.
Qed.

Lemma makedirs_walk_outside exist_ok rest : ∀ pre fs k,
  k ∉ chain pre rest →
  (fsops.makedirs_walk exist_ok pre rest fs).2 !! k = fs !! k.
Proof.
  induction rest as [| c rest IH]; intros pre fs k Hk; [done |].
  simpl in Hk. apply not_elem_of_cons in Hk as [Hne Hk].
  simpl. destruct (fs !! (pre ++ [c])) as [[| content] |] eqn:Hp.
  - destruct rest as [| d rest]; [by destruct exist_ok |]. by apply IH.
  - by destruct rest.
  - assert ((fsops.makedirs_walk exist_ok (pre ++ [c]) rest
               (<[pre ++ [c] := Dir]> fs)).2 !! k = fs !! k) as Hgoal.
    { rewrite IH by done. by rewrite lookup_insert_ne. }
    by destruct rest.
Qed.

(** A walk that returns leaves a directory at every path of its chain,
    whatever [exist_ok] is. *)
Lemma makedirs_walk_ok_chain exist_ok rest : ∀ pre fs fs',
  fsops.makedirs_walk exist_ok pre rest fs = (Ok tt, fs') →
  Forall (λ q, fs' !! q = Some Dir) (chain pre rest).
Proof.
  induction rest as [| c rest IH]; intros pre fs fs' Hrun; [constructor |].
  simpl. simpl in Hrun.
  assert (∀ fs0, fs0 !! (pre ++ [c]) = Some Dir →
            fsops.makedirs_walk exist_ok (pre ++ [c]) rest fs0 = (Ok tt, fs') →
            Forall (λ q, fs' !! q = Some Dir)
              ((pre ++ [c]) :: chain (pre ++ [c]) rest)) as Hstep.
  { intros fs0 Hdir Hrest. constructor; [| by eapply IH].
    pose proof (makedirs_walk_preserves exist_ok rest (pre ++ [c]) fs0
                  (pre ++ [c]) Dir Hdir) as Hkept.
    by rewrite Hrest in Hkept. }
  destruct (fs !! (pre ++ [c])) as [[| content] |] eqn:Hp.
  - destruct rest as [| d rest].
    + destruct exist_ok; [| done]. simplify_eq. by repeat constructor.
    + by apply (Hstep fs).
  - by destruct rest.
  - apply (Hstep (<[pre ++ [c] := Dir]> fs)).
    + by rewrite lookup_insert_eq.
    + by destruct rest.
Qed.

(** Where every directory is there already, [exist_ok] makes the walk
    a no-op. *)
Lemma makedirs_walk_noop rest : ∀ pre fs,
  Forall (λ q, fs !! q = Some Dir) (chain pre rest) →
  fsops.makedirs_walk true pre rest fs = (Ok tt, fs).
Proof.
  induction rest as [| c rest IH]; intros pre fs Hdirs; [done |].
  simpl in Hdirs. apply Forall_cons in Hdirs as [Hhead Hdirs].
  simpl. rewrite Hhead. destruct rest; [done |]. by apply IH.
Qed.

Lemma makedirs_walk_errors exist_ok rest : ∀ pre fs e fs',
  fsops.makedirs_walk exist_ok pre rest fs = (Raise e, fs') →
  e = FileExistsError ∨ e = NotADirectoryError.
Proof.
  induction rest as [| c rest IH]; intros pre fs e fs' Hrun; [done |].
  simpl in Hrun.
  destruct (fs !! (pre ++ [c])) as [[| content] |] eqn:Hp.
  - destruct rest as [| d rest].
    + destruct exist_ok; simplify_eq. by left.
    + by eapply IH.
  - destruct rest; simplify_eq; auto.
  - destruct rest; [done |]. by eapply IH.
Qed.

Lemma makedirs_ok_chain exist_ok fs p fs' :
  fsops.makedirs exist_ok fs p = (Ok tt, fs') →
  Forall (λ q, fs' !! q = Some Dir) (chain [] p).
Proof.
  destruct p as [| c p]; [constructor |]. intros Hrun.
  by eapply makedirs_walk_ok_chain.
Qed.

Lemma makedirs_preserves exist_ok fs p k x :
  fs !! k = Some x → (fsops.makedirs exist_ok fs p).2 !! k = Some x.
Proof.
  destruct p as [| c p]; [by destruct exist_ok |].
  apply makedirs_walk_preserves.
Qed.

Lemma makedirs_noop fs p :
  Forall (λ q, fs !! q = Some Dir) (chain [] p) →
  fsops.makedirs true fs p = (Ok tt, fs).
Proof. destruct p as [| c p]; [done |]. apply makedirs_walk_noop. Qed.

Lemma makedirs_errors exist_ok fs p e fs' :
  fsops.makedirs exist_ok fs p = (Raise e, fs') →
  e = FileExistsError ∨ e = NotADirectoryError.
Proof.
  destruct p as [| c p]; intros Hrun.
  - destruct exist_ok; simpl in Hrun; simplify_eq. by left.
  - by eapply makedirs_walk_errors.
Qed.

Lemma write_errors fs p c e fs' :
  fsops.write fs p c = (Raise e, fs') →
  fs' = fs ∧ is_fs_error e = true.
Proof.
  unfold fsops.write, fsops.missing_error.
  destruct (node_at fs p) as [[|] |];
    destruct (node_at fs (removelast p)) as [[|] |];
    try destruct (file_above fs p); intros; simplify_eq; done.
Qed.

End makedirs_facts.

Section stamp2.
Variable env : Env.

(** X2: the initialisation is idempotent.  Whenever it returns (the
    cache was current, stale or missing) and the running version has no
    trailing whitespace, running it again on the result returns and
    changes nothing. *)
Theorem init_cache_idempotent w w1 :
  pystr.rstrip (keops_version env) = keops_version env →
  config.init_cache env w = (Ok tt, w1) →
  config.init_cache env w1 = (Ok tt, w1).
Proof.
  intros Hclean Hrun.
  pose proof (cache_folder_not_root env) as Hne.
  pose proof (locate_version_file env) as Hlv.
  (* a run that wrote the stamp into a folder it made *)
  assert (∀ fs1 fs2 fs3,
            fsops.makedirs false fs1 (cache_root env) = (Ok tt, fs2) →
            fsops.write fs2 (stamp_file env) (keops_version env)
            = (Ok tt, fs3) →
            config.init_cache env (set_fs fs3 w) = (Ok tt, set_fs fs3 w))
    as Hfresh.
  { intros fs1 fs2 fs3 Hmk Hwr.
    apply write_ok in Hwr as (-> & _ & _).
    apply makedirs_ok_chain in Hmk.
    rewrite Forall_forall in Hmk.
    specialize (Hmk (cache_root env) (self_in_chain _ Hne)).
    unfold stamp_file. rewrite Hlv. fold (cache_root env).
    apply (init_cache_current env _ (keops_version env)); cbn [fs set_fs].
    - rewrite lookup_insert_ne; [eauto |].
      intros Heq. apply (f_equal length) in Heq.
      rewrite length_app in Heq. simpl in Heq. lia.
    - unfold stamp_file. rewrite Hlv. fold (cache_root env).
      by rewrite lookup_insert_eq.
    - done. }
  unfold config.init_cache, os_path_exists, open_read, shutil_rmtree,
    os_makedirs, open_write in Hrun.
  unfold mbind, M_bind, bind, mret, M_ret, ret, raise, gets, modify, on_fs
    in Hrun.
  rewrite truthy_cache_folder, truthy_version_file in Hrun.
  fold (cache_root env) (stamp_file env) in Hrun. cbn [andb] in Hrun.
  destruct (bool_decide (is_Some (node_at (fs w) (cache_root env))))
    eqn:Hthere.
  - apply bool_decide_eq_true_1 in Hthere.
    unfold cache_root in Hthere.
    rewrite (node_at_nonempty _ _ Hne) in Hthere.
    unfold fsops.read, stamp_file in Hrun.
    rewrite Hlv, node_at_snoc in Hrun.
    rewrite <- Hlv in Hrun. fold (stamp_file env) in Hrun.
    destruct (fs w !! stamp_file env) as [[| c] |] eqn:Hstamp;
      [done | | done].
    destruct (String.eqb_spec (pystr.rstrip c) (keops_version env))
      as [Hsame | Hdiff]; cbn [negb fs set_fs] in Hrun.
    + rewrite set_fs_same in Hrun. injection Hrun as <-.
      by apply (init_cache_current env w c).
    + destruct (fsops.rmtree (fs w) (cache_root env)) as [[[] | e] fs1];
        [| done].
      cbn [fs set_fs] in Hrun.
      destruct (fsops.makedirs false fs1 (cache_root env))
        as [[[] | e] fs2] eqn:Hmk; [| done].
      cbn [fs set_fs] in Hrun.
      destruct (fsops.write fs2 (stamp_file env) (keops_version env))
        as [[[] | e] fs3] eqn:Hwr; [| done].
      injection Hrun as <-. cbn [set_fs fs]. by apply (Hfresh fs1 fs2 fs3).
  - destruct (fsops.makedirs false (fs w) (cache_root env))
      as [[[] | e] fs2] eqn:Hmk; [| done].
    cbn [fs set_fs] in Hrun.
    destruct (fsops.write fs2 (stamp_file env) (keops_version env))
      as [[[] | e] fs3] eqn:Hwr; [| done].
    injection Hrun as <-. by apply (Hfresh (fs w) fs2 fs3).
Qed.

End stamp2.

Lemma init_cache_idempotent_witness :
  let w1 := (config.init_cache sample.linux_cpu
               (fresh_world sample.stale_disk)).2 in
  config.init_cache sample.linux_cpu w1 = (Ok tt, w1).
Proof.
  intros w1.
  apply (init_cache_idempotent sample.linux_cpu
           (fresh_world sample.stale_disk) w1).
  - reflexivity.
  - vm_compute. reflexivity.
Defined.

(** ** Flags and probing beyond the default settings *)

Section settings.
Variable env : Env.

(** X3: with [use_OpenMP] set to [False] at line 11, the flag assembly
    does not get past line 99: [platform] is imported inside the
    [if use_OpenMP:] branch only, so the test of the platform raises
    [NameError]; [cpp_flags] then holds the base options and [-flto]
    and nothing else, and no warning was emitted. *)
Theorem openmp_off_raises_name_error w :
  use_OpenMP w = false →
  let r := config.init_cpp_flags env w in
  r.1 = Raise NameError
  ∧ cpp_flags r.2 = config.compile_options +:+ " -flto"
  ∧ warnings r.2 = warnings w
  ∧ use_OpenMP r.2 = false.
Proof.
  intros Hoff. unfold config.init_cpp_flags, config.add_cpp_flags.
  unfold_monad. simpl. rewrite Hoff. done.
Qed.

(** X4: lines 105-153 never raise, whatever the machine: GPU mode ends
    enabled exactly when it was requested, both libraries resolve by
    name and a device is counted; the GPU globals are all [None] and
    [jit_binary] is [None] exactly when it ends disabled, and otherwise
    [jit_binary] is left as it was. *)
Theorem probing_outcome w :
  let r := (config.probe_cuda env;; config.init_gpu_config env) w in
  let found :=
    forallb (λ lib, pystr.truthy_opt (find_library env lib))
      config.cuda_dependencies in
  r.1 = Ok tt
  ∧ cuda_available r.2 = found && (0 <? gpu_device_count env)%Z
  ∧ use_cuda r.2 = use_cuda w && cuda_available r.2
  ∧ (if use_cuda r.2
     then jit_binary r.2 = jit_binary w
          ∧ nvrtc_flags (gpu r.2)
            = Some (config.compile_options +:+ " -fpermissive -L"
                    +:+ libcuda_folder_found env +:+ " -L"
                    +:+ libnvrtc_folder_found env +:+ " -lcuda -lnvrtc")
          ∧ warnings r.2 = warnings w
     else jit_binary r.2 = None ∧ gpu r.2 = config.cpu_only).
Proof.
  unfold config.probe_cuda, config.init_gpu_config,
    gpu_utils.get_gpu_props, KeOps_Warning.
  destruct (forallb _ config.cuda_dependencies);
    destruct (0 <? gpu_device_count env)%Z eqn:Hcount;
    destruct (use_cuda w) eqn:Hcuda;
    unfold_monad; repeat (simpl; rewrite ?Hcount, ?Hcuda);
    split_and!; try done; by rewrite ?app_nil_r.
Qed.

(** X5: lines 117-120: GPU mode switched off in the file while the
    machine has a usable GPU gives one warning and a CPU-only
    configuration; nothing is raised. *)
Theorem gpu_available_but_disabled w :
  use_cuda w = false →
  forallb (λ lib, pystr.truthy_opt (find_library env lib))
    config.cuda_dependencies = true →
  (0 < gpu_device_count env)%Z →
  let r := (config.probe_cuda env;; config.init_gpu_config env) w in
  r.1 = Ok tt
  ∧ cuda_available r.2 = true
  ∧ use_cuda r.2 = false
  ∧ gpu r.2 = config.cpu_only
  ∧ jit_binary r.2 = None
  ∧ warnings r.2 =
      warnings w
      ++ ["Cuda appears to be available on your system, but use_cuda is set to False in config.py. Using cpu only mode"].
Proof.
  intros Hoff Hlibs Hcount%Z.ltb_lt.
  unfold config.probe_cuda, config.init_gpu_config,
    gpu_utils.get_gpu_props, KeOps_Warning.
  rewrite Hlibs. unfold_monad.
  repeat (simpl; rewrite ?Hcount, ?Hoff). done.
Qed.

End settings.

Lemma openmp_off_raises_name_error_witness :
  let r := config.init_cpp_flags sample.linux_cpu (fresh_world ∅) in
  r.1 = Raise NameError
  ∧ cpp_flags r.2 = config.compile_options +:+ " -flto"
  ∧ warnings r.2 = warnings (fresh_world ∅)
  ∧ use_OpenMP r.2 = false.
Proof.
  apply (openmp_off_raises_name_error sample.linux_cpu (fresh_world ∅)).
  reflexivity.
Defined.

Lemma gpu_available_but_disabled_witness :
  let w := fresh_world sample.new_disk in
  let r :=
    (config.probe_cuda sample.linux_gpu;;
     config.init_gpu_config sample.linux_gpu) w in
  r.1 = Ok tt
  ∧ cuda_available r.2 = true
  ∧ use_cuda r.2 = false
  ∧ gpu r.2 = config.cpu_only
  ∧ jit_binary r.2 = None
  ∧ warnings r.2 =
      warnings w
      ++ ["Cuda appears to be available on your system, but use_cuda is set to False in config.py. Using cpu only mode"].
Proof.
  apply (gpu_available_but_disabled sample.linux_gpu
           (fresh_world sample.new_disk)).
  - reflexivity.
  - reflexivity.
  - reflexivity.
Defined.

(** ** The preloader when a library does not load *)

Section preloader2.
Variable env : Env.

(** X6: [init_cudalibs] sets its flag only after the third [CDLL] call
    returned.  A library that fails to load makes it raise [OSError]
    with the flag still off, so the next call tries again; the
    libraries opened before the failure stay open.  After any call the
    flag is on exactly when it was on before or the call returned. *)
Theorem init_cudalibs_flag_iff_loaded w :
  let r := config.init_cudalibs env w in
  (init_cudalibs_flag r.2 = true
   ↔ init_cudalibs_flag w = true ∨ r.1 = Ok tt)
  ∧ (∀ e, r.1 = Raise e →
          e = OSError
          ∧ init_cudalibs_flag r.2 = false
          ∧ ∃ opened,
              dl_loaded r.2 = dl_loaded w ++ opened
              ∧ opened `prefix_of`
                  [find_library env "nvrtc"; find_library env "cuda"]).
Proof.
  unfold config.init_cudalibs, CDLL. unfold_monad.
  destruct (init_cudalibs_flag w) eqn:Hflag; simpl.
  { rewrite ?Hflag. split; [naive_solver | done]. }
  destruct (dlopen_ok env (find_library env "nvrtc")); simpl.
  - destruct (dlopen_ok env (find_library env "cuda")); simpl.
    + destruct (dlopen_ok env (find_library env "cudart")); simpl.
      * split; [naive_solver | done].
      * split; [rewrite Hflag; naive_solver |].
        intros e [= <-]. split_and!; [done | done |].
        exists [find_library env "nvrtc"; find_library env "cuda"].
        by rewrite <- app_assoc.
    + split; [rewrite Hflag; naive_solver |].
      intros e [= <-]. split_and!; [done | done |].
      exists [find_library env "nvrtc"]. split; [done |].
      by exists [find_library env "cuda"].
  - split; [rewrite Hflag; naive_solver |].
    intros e [= <-]. split_and!; [done | done |].
    exists []. split; [by rewrite app_nil_r | apply prefix_nil].
Qed.

End preloader2.

(** ** More on [set_build_folder] *)

Section relocation.
Variable env : Env.

Lemma set_build_path_same w : set_build_path (build_path w) w = w.
Proof. by destruct w. Qed.

(** The successful run, with the world it ends in. *)
Lemma use_build_folder_result chosen reset_all w fs1 :
  pystr.truthy chosen = true →
  fsops.makedirs true (fs w) (locate env chosen) = (Ok tt, fs1) →
  fsops.write fs1 (save_file env) chosen
  = (Ok tt, <[save_file env := File chosen]> fs1) →
  config.use_build_folder env chosen reset_all w
  = (Ok tt,
     relocated env chosen reset_all (<[save_file env := File chosen]> fs1) w).
Proof.
  intros Htruthy Hmk Hwr.
  pose proof (makedirs_ok_dir _ _ _ Hmk) as Hdir.
  destruct (write_ok _ _ _ _ Hwr) as (_ & Hnotdir & _).
  assert (save_file env ≠ locate env chosen) as Hne by congruence.
  set (fs2 := <[save_file env := File chosen]> fs1) in *.
  assert (node_at fs2 (locate env chosen) = Some Dir) as Hdir2.
  { destruct (locate env chosen) as [| c p] eqn:Hloc; [done |].
    unfold fs2. simpl. by rewrite lookup_insert_ne. }
  unfold config.use_build_folder, os_makedirs, open_write, relocated.
  unfold_monad. rewrite truthy_save_file, Htruthy. fold (save_file env).
  cbn [fs set_fs set_build_path]. rewrite Hmk.
  cbn [fs set_fs set_build_path]. rewrite Hwr.
  destruct reset_all; [| done].
  unfold get_keops_dll.reset, Gpu_link_compile.compile_jit_compile_dll,
    Gpu_link_compile.jit_compile_dll, os_path_exists, open_write.
  unfold_monad.
  cbn [fs set_fs set_build_path build_path use_cuda set_registry registry
         default from_option save_folder next_handle toolchain_log].
  destruct (use_cuda w) eqn:Hcuda;
    cbn [fs set_fs set_build_path build_path use_cuda set_registry andb];
    [| done].
  rewrite truthy_launcher. fold (launcher_file env chosen). cbn [andb].
  destruct (bool_decide (is_Some (node_at fs2 (launcher_file env chosen))))
    eqn:Hthere; cbn [negb]; [done |].
  apply bool_decide_eq_false_1 in Hthere.
  cbn [fs set_fs set_build_path build_path use_cuda set_registry].
  rewrite truthy_launcher. fold (launcher_file env chosen).
  cbn [fs set_fs set_build_path set_registry].
  rewrite write_succeeds; [done | |].
  - intros Heq. apply Hthere. rewrite Heq. eauto.
  - by rewrite launcher_file_snoc, removelast_last.
Qed.

(** The failing run: the folder is recorded first, then the disk is
    touched; nothing after the failing step happens. *)
Lemma use_build_folder_raises chosen reset_all w e w' :
  config.use_build_folder env chosen reset_all w = (Raise e, w') →
  is_fs_error e = true
  ∧ ∃ disk, w' = set_fs disk (set_build_path chosen w)
            ∧ ∀ k x, fs w !! k = Some x → disk !! k = Some x.
Proof.
  intros Hrun.
  destruct (pystr.truthy chosen) eqn:Htruthy.
  - destruct (fsops.makedirs true (fs w) (locate env chosen))
      as [[[] | e1] fs1] eqn:Hmk.
    + destruct (fsops.write fs1 (save_file env) chosen)
        as [[[] | e2] fs2] eqn:Hwr.
      * destruct (write_ok _ _ _ _ Hwr) as (-> & _).
        rewrite (use_build_folder_result chosen reset_all w fs1) in Hrun;
          done.
      * destruct (write_errors _ _ _ _ _ Hwr) as [-> Hfs].
        revert Hrun.
        unfold config.use_build_folder, os_makedirs, open_write.
        unfold_monad. rewrite truthy_save_file, Htruthy.
        fold (save_file env).
        cbn [fs set_fs set_build_path]. rewrite Hmk.
        cbn [fs set_fs set_build_path]. rewrite Hwr.
        intros [= <- <-]. split; [done |]. exists fs1. split; [done |].
        intros k x Hk.
        pose proof (makedirs_preserves true (fs w) (locate env chosen) k x Hk)
          as Hkept.
        by rewrite Hmk in Hkept.
    + revert Hrun.
      unfold config.use_build_folder, os_makedirs, open_write.
      unfold_monad. rewrite Htruthy.
      cbn [fs set_fs set_build_path]. rewrite Hmk.
      intros [= <- <-]. split.
      { by destruct (makedirs_errors _ _ _ _ _ Hmk) as [-> | ->]. }
      exists fs1. split; [done |].
      intros k x Hk.
      pose proof (makedirs_preserves true (fs w) (locate env chosen) k x Hk)
        as Hkept.
      by rewrite Hmk in Hkept.
  - revert Hrun. unfold config.use_build_folder, os_makedirs.
    unfold_monad. rewrite Htruthy. intros [= <- <-].
    split; [done |]. exists (fs w). split; [| done].
    by destruct w.
Qed.

End relocation.

Section relocation2.
Variable env : Env.

Lemma launcher_not_save chosen : launcher_file env chosen ≠ save_file env.
Proof.
  rewrite launcher_file_snoc, save_file_snoc. intros Heq.
  by apply app_inj_tail in Heq as [_ ?].
Qed.

Lemma launcher_not_cache_root chosen :
  launcher_file env chosen ≠ cache_root env.
Proof.
  rewrite launcher_file_snoc. unfold cache_root.
  rewrite locate_cache_folder.
  change [".cache"; "keops"] with ([".cache"] ++ ["keops"]).
  rewrite app_assoc. intros Heq. by apply app_inj_tail in Heq as [_ ?].
Qed.

Lemma save_not_cache_root : save_file env ≠ cache_root env.
Proof.
  rewrite save_file_snoc. intros Heq. apply (f_equal length) in Heq.
  rewrite length_app in Heq. simpl in Heq. lia.
Qed.

Lemma launcher_not_in_chain chosen :
  launcher_file env chosen ∉ chain [] (locate env chosen).
Proof.
  intros Hin%in_chain_prefix%prefix_length.
  rewrite launcher_file_snoc, length_app in Hin. simpl in Hin. lia.
Qed.

(** The disk of [relocated] is [disk] with at most the launcher added. *)
Lemma relocated_lookup chosen reset_all disk w k :
  fs (relocated env chosen reset_all disk w) !! k = disk !! k
  ∨ (k = launcher_file env chosen ∧ disk !! k = None).
Proof.
  unfold relocated. destruct reset_all; [| by left].
  destruct (use_cuda w); cbn [andb]; [| by left].
  destruct (bool_decide _) eqn:Hthere; cbn [negb]; [by left |].
  apply bool_decide_eq_false_1 in Hthere. cbn [fs set_fs].
  destruct (decide (k = launcher_file env chosen)) as [-> | Hne].
  - right. split; [done |].
    rewrite launcher_file_snoc, node_at_snoc in Hthere.
    rewrite launcher_file_snoc. by apply eq_None_not_Some.
  - left. by rewrite lookup_insert_ne.
Qed.


(** X8: an empty saved-location file is taken at its word: asked to
    read it, [set_build_folder] settles on the empty path, sets
    [build_path] to it and raises [FileNotFoundError] from
    [os.makedirs]; the disk and the registry are as before. *)
Theorem empty_saved_location_raises reset_all w :
  fs w !! save_file env = Some (File "") →
  config.set_build_folder env None true reset_all w
  = (Raise FileNotFoundError, set_build_path "" w).
Proof.
  intros Hsaved. rewrite set_build_folder_eq.
  unfold resolved_build_path. rewrite Hsaved.
  unfold config.use_build_folder, os_makedirs. unfold_monad. done.
Qed.

Lemma resolved_again path read_save_file disk disk' :
  disk' !! save_file env
  = Some (File (resolved_build_path env path read_save_file disk)) →
  resolved_build_path env path read_save_file disk'
  = resolved_build_path env path read_save_file disk.
Proof.
  unfold resolved_build_path.
  destruct path as [p |]; [destruct (pystr.truthy p); [done |] |];
    destruct read_save_file; try done; by intros ->.
Qed.

(** X9: the saved location survives a restart.  After a call that
    returned, any process that finds the same disk and calls
    [set_build_folder(read_save_file=True)] without a path settles on
    the folder of that call. *)
Theorem saved_location_is_restored path read_save_file reset_all w
    w' reset_all' :
  let r := config.set_build_folder env path read_save_file reset_all w in
  r.1 = Ok tt →
  fs w' = fs r.2 →
  build_path (config.set_build_folder env None true reset_all' w').2
  = build_path r.2.
Proof.
  intros r Hok Hdisk. subst r.
  rewrite set_build_folder_eq in Hok, Hdisk. rewrite set_build_folder_eq.
  set (chosen := resolved_build_path env path read_save_file (fs w)) in *.
  destruct (config.use_build_folder env chosen reset_all w)
    as [[[] | e] w1] eqn:Hrun; [| done].
  destruct (use_build_folder_inv env _ _ _ _ _ Hrun)
    as (fs1 & Htruthy & Hmk & Hwr).
  destruct (use_build_folder_run env chosen reset_all w fs1 Htruthy Hmk Hwr)
    as (w1' & Hrun' & Hbp & Hsaved & _).
  rewrite Hrun in Hrun'. injection Hrun' as <-.
  rewrite use_build_folder_path. simpl in *.
  unfold resolved_build_path. rewrite Hdisk, Hsaved.
  rewrite set_build_folder_eq. fold chosen. by rewrite Hrun.
Qed.

(** X10: [set_build_folder] only adds to the disk.  Whether it returns
    or raises, every entry other than the saved-location file is still
    there with the same content afterwards. *)
Theorem relocation_only_adds path read_save_file reset_all w k x :
  k ≠ save_file env →
  fs w !! k = Some x →
  fs (config.set_build_folder env path read_save_file reset_all w).2 !! k
  = Some x.
Proof.
  intros Hk Hx. rewrite set_build_folder_eq.
  set (chosen := resolved_build_path env path read_save_file (fs w)).
  destruct (config.use_build_folder env chosen reset_all w)
    as [[[] | e] w1] eqn:Hrun.
  - destruct (use_build_folder_inv env _ _ _ _ _ Hrun)
      as (fs1 & Htruthy & Hmk & Hwr).
    rewrite (use_build_folder_result env chosen reset_all w fs1) in Hrun
      by done.
    injection Hrun as <-. cbn [snd].
    assert (<[save_file env := File chosen]> fs1 !! k = Some x) as Hk2.
    { rewrite lookup_insert_ne by done.
      pose proof (makedirs_preserves true (fs w) (locate env chosen) k x Hx)
        as Hkept.
      by rewrite Hmk in Hkept. }
    destruct (relocated_lookup chosen reset_all
                (<[save_file env := File chosen]> fs1) w k)
      as [-> | [_ Hnone]]; [done | congruence].
  - destruct (use_build_folder_raises env _ _ _ _ _ Hrun)
      as (_ & disk & -> & Hkept).
    by apply Hkept.
Qed.

End relocation2.


Lemma empty_saved_location_raises_witness :
  let disk :=
    <[save_file sample.linux_cpu := File ""]> sample.relocated_disk in
  config.set_build_folder sample.linux_cpu None true false (fresh_world disk)
  = (Raise FileNotFoundError, set_build_path "" (fresh_world disk)).
Proof.
  intros disk.
  apply (empty_saved_location_raises sample.linux_cpu false (fresh_world disk)).
  vm_compute. reflexivity.
Defined.

Lemma saved_location_is_restored_witness :
  let env := sample.linux_cpu in
  let r :=
    config.set_build_folder env (Some "/data/fast") false false
      (fresh_world sample.relocated_disk) in
  build_path
    (config.set_build_folder env None true false (fresh_world (fs r.2))).2
  = build_path r.2.
Proof.
  intros env r.
  apply (saved_location_is_restored env (Some "/data/fast") false false
           (fresh_world sample.relocated_disk) (fresh_world (fs r.2)) false).
  - vm_compute. reflexivity.
  - reflexivity.
Defined.

Lemma relocation_only_adds_witness :
  let env := sample.linux_gpu in
  fs (config.set_build_folder env (Some "/new") false true
        sample.busy_world).2 !! ["data"; "keops"; "sig_a"]
  = Some (File "src_a").
Proof.
  intros env.
  apply (relocation_only_adds env (Some "/new") false true sample.busy_world).
  - vm_compute. discriminate.
  - vm_compute. reflexivity.
Defined.

Section settled.
Variable env : Env.

(** On a settled disk the call creates nothing and rewrites the saved
    location with what it holds. *)
Lemma settled_run chosen reset_all w :
  settled env chosen (fs w) →
  config.use_build_folder env chosen reset_all w
  = (Ok tt, relocated env chosen reset_all (fs w) w).
Proof.
  intros (Htruthy & Hdirs & Hsaved & Hroot).
  rewrite (use_build_folder_result env chosen reset_all w (fs w)).
  - by rewrite insert_id.
  - done.
  - by apply makedirs_noop.
  - apply write_succeeds.
    + by rewrite node_at_save_file, Hsaved.
    + rewrite save_file_snoc, removelast_last. unfold cache_root in *.
      by rewrite (node_at_nonempty _ _ (cache_folder_not_root env)).
Qed.

(** A call that returned leaves a settled disk. *)
Lemma relocated_settled chosen reset_all w fs1 :
  pystr.truthy chosen = true →
  fsops.makedirs true (fs w) (locate env chosen) = (Ok tt, fs1) →
  fsops.write fs1 (save_file env) chosen
  = (Ok tt, <[save_file env := File chosen]> fs1) →
  settled env chosen
    (fs (relocated env chosen reset_all
           (<[save_file env := File chosen]> fs1) w)).
Proof.
  intros Htruthy Hmk Hwr.
  destruct (write_ok _ _ _ _ Hwr) as (_ & Hnotdir & Hparent).
  rewrite node_at_save_file in Hnotdir.
  rewrite save_file_snoc, removelast_last in Hparent.
  unfold cache_root in Hparent.
  rewrite (node_at_nonempty _ _ (cache_folder_not_root env)) in Hparent.
  fold (cache_root env) in Hparent.
  assert (∀ k y, k ≠ save_file env → fs1 !! k = Some y →
            fs (relocated env chosen reset_all
                  (<[save_file env := File chosen]> fs1) w) !! k = Some y)
    as Hkept.
  { intros k y Hk Hy.
    destruct (relocated_lookup env chosen reset_all
                (<[save_file env := File chosen]> fs1) w k)
      as [-> | [_ Hnone]].
    - by rewrite lookup_insert_ne.
    - rewrite lookup_insert_ne in Hnone by done. congruence. }
  split_and!.
  - done.
  - pose proof (makedirs_ok_chain _ _ _ _ Hmk) as Hdirs.
    eapply Forall_impl; [exact Hdirs |]. simpl. intros q Hq.
    apply Hkept; [| done]. intros ->. congruence.
  - destruct (relocated_lookup env chosen reset_all
                (<[save_file env := File chosen]> fs1) w (save_file env))
      as [-> | [Heq _]].
    + by rewrite lookup_insert_eq.
    + symmetry in Heq. by apply launcher_not_save in Heq.
  - apply Hkept; [| done]. intros Heq. symmetry in Heq.
    by apply save_not_cache_root in Heq.
Qed.

(** Running the closed form again on its own result changes nothing. *)
Lemma relocated_fixpoint chosen reset_all disk w :
  let w1 := relocated env chosen reset_all disk w in
  relocated env chosen reset_all (fs w1) w1 = w1.
Proof.
  unfold relocated. destruct w as [d bp jb uc uo cf ca g fl dl ws reg].
  destruct reset_all; [| done]. cbn.
  destruct uc; cbn; [| done].
  destruct (bool_decide (is_Some (node_at disk (launcher_file env chosen))))
    eqn:Hthere; cbn.
  - by rewrite Hthere.
  - rewrite bool_decide_eq_true_2; [done |].
    rewrite launcher_file_snoc, node_at_snoc, lookup_insert_eq. eauto.
Qed.

(** X11: [set_build_folder] is idempotent: after a call that returned,
    the same call again returns and leaves the whole world (disk,
    [build_path], registry) as the first call left it. *)
Theorem set_build_folder_idempotent path read_save_file reset_all w :
  let r := config.set_build_folder env path read_save_file reset_all w in
  r.1 = Ok tt →
  config.set_build_folder env path read_save_file reset_all r.2
  = (Ok tt, r.2).
Proof.
  intros r Hok. subst r.
  rewrite (set_build_folder_eq env path read_save_file reset_all w)
    in Hok |- *.
  rewrite set_build_folder_eq.
  set (chosen := resolved_build_path env path read_save_file (fs w)) in *.
  destruct (config.use_build_folder env chosen reset_all w)
    as [[[] | e] w1] eqn:Hrun; [| done].
  destruct (use_build_folder_inv env _ _ _ _ _ Hrun)
    as (fs1 & Htruthy & Hmk & Hwr).
  rewrite (use_build_folder_result env chosen reset_all w fs1) in Hrun
    by done.
  injection Hrun as <-. cbn [snd].
  pose proof (relocated_settled chosen reset_all w fs1 Htruthy Hmk Hwr)
    as Hsettled.
  rewrite (resolved_again env path read_save_file (fs w)).
  - fold chosen. rewrite (settled_run chosen reset_all _ Hsettled).
    by rewrite relocated_fixpoint.
  - by destruct Hsettled as (_ & _ & Hsaved & _).
Qed.

End settled.

Lemma set_build_folder_idempotent_witness :
  let env := sample.linux_gpu in
  let r :=
    config.set_build_folder env (Some "/new") false true sample.busy_world in
  config.set_build_folder env (Some "/new") false true r.2 = (Ok tt, r.2).
Proof.
  intros env r.
  apply (set_build_folder_idempotent env (Some "/new") false true
           sample.busy_world).
  vm_compute. reflexivity.
Defined.

(** ** The cache folder and the rest of the disk *)

Section cache3.
Variable env : Env.

Lemma stamp_under_root : cache_root env `prefix_of` stamp_file env.
Proof.
  unfold stamp_file. rewrite locate_version_file. by exists ["keops_version"].
Qed.

Lemma invariant_on_fs_op {A} (P : World → Prop)
    (op : gmap (list string) node → result A * gmap (list string) node) :
  (∀ w, P w → P (set_fs (op (fs w)).2 w)) → invariant P (on_fs op).
Proof.
  intros Hop w Hw. specialize (Hop w Hw). unfold on_fs.
  by destruct (op (fs w)) as [r x].
Qed.

(** What every step of the initialisation keeps, relative to the world
    [w] it started from. *)
Lemma init_cache_invariant w :
  invariant (λ w' : World,
               w' = set_fs (fs w') w
               ∧ ∀ k x, ¬ cache_root env `prefix_of` k →
                        fs w !! k = Some x → fs w' !! k = Some x)
    (config.init_cache env).
Proof.
  set (P := λ w' : World,
         w' = set_fs (fs w') w
         ∧ ∀ k x, ¬ cache_root env `prefix_of` k →
                  fs w !! k = Some x → fs w' !! k = Some x).
  assert (∀ w' d, P w' →
            (∀ k x, ¬ cache_root env `prefix_of` k →
                    fs w' !! k = Some x → d !! k = Some x) →
            P (set_fs d w')) as Hstep.
  { intros w' d [Hworld Hkept] Hd. split.
    - rewrite Hworld. reflexivity.
    - intros k x Hk Hx. apply Hd; [done |]. by apply Hkept. }
  unfold config.init_cache, os_path_exists, open_read, shutil_rmtree,
    os_makedirs, open_write.
  rewrite truthy_cache_folder, truthy_version_file.
  fold (cache_root env) (stamp_file env).
  repeat lazymatch goal with
         | |- invariant _ (ret _) => apply invariant_ret
         | |- invariant _ (mret _) => apply invariant_mret
         | |- invariant _ (gets _) => apply invariant_gets
         | |- invariant _ (_ ≫= _) => apply invariant_bind; [| intros ?]
         | |- invariant _ (on_fs _) =>
             apply invariant_on_fs_op; intros w' Hw'; apply Hstep;
             [done | intros k x Hk Hx; cbn [snd]]
         | |- invariant _ (if ?c then _ else _) => destruct c
         end.
  all: try done.
  all: try (by apply makedirs_preserves).
  all: try (destruct (fsops.write (fs w') (stamp_file env)
                        (keops_version env))
              as [[[] | e] fs3] eqn:Hwr; cbn [snd];
            [ apply write_ok in Hwr as (-> & _);
              rewrite lookup_insert_ne; [done |]; intros <-;
              apply Hk, stamp_under_root
            | by apply write_errors in Hwr as [-> _] ]).
  all: unfold fsops.rmtree;
    destruct (node_at (fs w') (cache_root env)) as [[| c] |];
    cbn [snd]; [| done | done];
    rewrite rmtree_lookup; by rewrite decide_False.
Qed.

(** X12: the initialisation of the cache works inside the cache folder
    only.  Whatever it does (nothing, wipe and recreate, create, or
    raise), an entry that is not under the cache folder is still there
    with the same content, and nothing but the disk has changed. *)
Theorem init_cache_stays_inside w :
  let r := config.init_cache env w in
  r.2 = set_fs (fs r.2) w
  ∧ ∀ k x, ¬ cache_root env `prefix_of` k →
           fs w !! k = Some x → fs r.2 !! k = Some x.
Proof.
  intros r. subst r. apply (init_cache_invariant w w).
  split; [| done]. by rewrite set_fs_same.
Qed.

End cache3.

(** ** The import as a whole *)


Section import.
Variable env : Env.



End import.

Section restart.
Variable env : Env.

(** An initialisation that returned left a current stamp. *)
Lemma init_cache_ok_current w w1 :
  pystr.rstrip (keops_version env) = keops_version env →
  config.init_cache env w = (Ok tt, w1) →
  is_Some (fs w1 !! cache_root env)
  ∧ ∃ c, fs w1 !! stamp_file env = Some (File c)
         ∧ pystr.rstrip c = keops_version env.
Proof.
  intros Hclean Hrun.
  pose proof (cache_folder_not_root env) as Hne.
  pose proof (locate_version_file env) as Hlv.
  assert (∀ fs1 fs2 fs3,
            fsops.makedirs false fs1 (cache_root env) = (Ok tt, fs2) →
            fsops.write fs2 (stamp_file env) (keops_version env)
            = (Ok tt, fs3) →
            is_Some (fs3 !! cache_root env)
            ∧ ∃ c, fs3 !! stamp_file env = Some (File c)
                   ∧ pystr.rstrip c = keops_version env) as Hfresh.
  { intros fs1 fs2 fs3 Hmk Hwr.
    apply write_ok in Hwr as (-> & _ & _).
    apply makedirs_ok_chain in Hmk.
    rewrite Forall_forall in Hmk.
    specialize (Hmk (cache_root env) (self_in_chain _ Hne)).
    split.
    - rewrite lookup_insert_ne; [eauto |].
      intros Heq. unfold stamp_file, cache_root in Heq.
      rewrite Hlv in Heq. apply (f_equal length) in Heq.
      rewrite length_app in Heq. simpl in Heq. lia.
    - exists (keops_version env). by rewrite lookup_insert_eq. }
  unfold config.init_cache, os_path_exists, open_read, shutil_rmtree,
    os_makedirs, open_write in Hrun.
  unfold mbind, M_bind, bind, mret, M_ret, ret, raise, gets, modify, on_fs
    in Hrun.
  rewrite truthy_cache_folder, truthy_version_file in Hrun.
  fold (cache_root env) (stamp_file env) in Hrun. cbn [andb] in Hrun.
  destruct (bool_decide (is_Some (node_at (fs w) (cache_root env))))
    eqn:Hthere.
  - apply bool_decide_eq_true_1 in Hthere.
    unfold cache_root in Hthere.
    rewrite (node_at_nonempty _ _ Hne) in Hthere.
    unfold fsops.read, stamp_file in Hrun.
    rewrite Hlv, node_at_snoc in Hrun.
    rewrite <- Hlv in Hrun. fold (stamp_file env) in Hrun.
    destruct (fs w !! stamp_file env) as [[| c] |] eqn:Hstamp;
      [done | | done].
    destruct (String.eqb_spec (pystr.rstrip c) (keops_version env))
      as [Hsame | Hdiff]; cbn [negb fs set_fs] in Hrun.
    + rewrite set_fs_same in Hrun. injection Hrun as <-. eauto.
    + destruct (fsops.rmtree (fs w) (cache_root env)) as [[[] | e] fs1];
        [| done].
      cbn [fs set_fs] in Hrun.
      destruct (fsops.makedirs false fs1 (cache_root env))
        as [[[] | e] fs2] eqn:Hmk; [| done].
      cbn [fs set_fs] in Hrun.
      destruct (fsops.write fs2 (stamp_file env) (keops_version env))
        as [[[] | e] fs3] eqn:Hwr; [| done].
      injection Hrun as <-. cbn [set_fs fs]. by apply (Hfresh fs1 fs2 fs3).
  - destruct (fsops.makedirs false (fs w) (cache_root env))
      as [[[] | e] fs2] eqn:Hmk; [| done].
    cbn [fs set_fs] in Hrun.
    destruct (fsops.write fs2 (stamp_file env) (keops_version env))
      as [[[] | e] fs3] eqn:Hwr; [| done].
    injection Hrun as <-. by apply (Hfresh (fs w) fs2 fs3).
Qed.

Lemma stamp_not_save : stamp_file env ≠ save_file env.
Proof.
  unfold stamp_file. rewrite locate_version_file, save_file_snoc.
  intros Heq. by apply app_inj_tail in Heq as [_ ?].
Qed.

(** The import, given how each of its parts runs. *)
Lemma import_module_run disk wA wB wC wD wE :
  config.init_cache env
    (set_use_OpenMP config.use_OpenMP_setting
       (set_use_cuda config.use_cuda_setting (fresh_world disk)))
  = (Ok tt, wA) →
  config.set_build_folder env None true false (set_build_path "" wA)
  = (Ok tt, wB) →
  config.init_cpp_flags env
    (set_jit_binary
       (Some (posixpath.join (build_path wB) ["keops_nvrtc.so"])) wB)
  = (Ok tt, wC) →
  config.probe_cuda env wC = (Ok tt, wD) →
  config.init_gpu_config env wD = (Ok tt, wE) →
  config.import_module env (fresh_world disk)
  = (Ok tt, set_init_cudalibs_flag false wE).
Proof.
  intros HA HB HC HD HE. unfold config.import_module.
  unfold mbind, M_bind, bind, modify, gets.
  by rewrite HA, HB, HC, HD, HE.
Qed.

Lemma tail_keeps_disk d :
  invariant (λ w, fs w = d) (config.init_cpp_flags env)
  ∧ invariant (λ w, fs w = d) (config.probe_cuda env)
  ∧ invariant (λ w, fs w = d) (config.init_gpu_config env).
Proof. split_and!; invariant_auto; done. Qed.

(** X14: an import is stable under restart.  When the running version
    has no trailing whitespace and an import in a fresh process
    succeeded, a fresh process started on the disk it left imports
    successfully too, ends in the same world (same build folder, flags
    and GPU configuration) and leaves that disk as it is. *)
Theorem reimport_is_stable disk w0 :
  pystr.rstrip (keops_version env) = keops_version env →
  config.import_module env (fresh_world disk) = (Ok tt, w0) →
  config.import_module env (fresh_world (fs w0)) = (Ok tt, w0).
Proof.
  intros Hclean Himport.
  unfold config.import_module in Himport.
  do 10 (apply bind_ok_inv in Himport as (? & ? & ? & Himport)).
  unfold modify in Himport. injection Himport as <-.
  repeat match goal with
         | H : modify _ _ = (_, _) |- _ =>
             unfold modify in H; injection H as <- <-
         | H : gets _ _ = (_, _) |- _ =>
             unfold gets in H; injection H as <- <-
         | u : unit |- _ => destruct u
         end.
  match goal with
  | HA : config.init_cache env ?W0 = (Ok tt, ?wA),
    HB : config.set_build_folder env None true false _ = (Ok tt, ?wB),
    HC : config.init_cpp_flags env _ = (Ok tt, ?wC),
    HD : config.probe_cuda env ?wC = (Ok tt, ?wD),
    HE : config.init_gpu_config env ?wD = (Ok tt, ?wE) |- _ =>
      rename HA into HA', HB into HB', HC into HC', HD into HD',
        HE into HE';
      rename wA into wA', wB into wB', wC into wC', wD into wD',
        wE into wE'
  end.
  (* the disk after the import is the disk after [set_build_folder] *)
  destruct (tail_keeps_disk (fs wB')) as (Hflags & Hprobe & Hgpu).
  assert (fs wE' = fs wB') as Hdisk.
  { match type of HC' with
    | config.init_cpp_flags env ?wj = _ =>
        pose proof (Hflags wj eq_refl) as H1
    end.
    rewrite HC' in H1. cbn in H1. pose proof (Hprobe wC' H1) as H2.
    rewrite HD' in H2. cbn in H2. pose proof (Hgpu wD' H2) as H3.
    by rewrite HE' in H3. }
  cbn [fs set_init_cudalibs_flag]. rewrite Hdisk.
  (* the first initialisation of the cache *)
  destruct (init_cache_ok_current _ _ Hclean HA') as (Hroot & c & Hstamp & Hc).
  match type of HA' with
  | config.init_cache env ?W0 = _ =>
      pose proof (init_cache_invariant env W0 W0
                    (conj (eq_sym (set_fs_same W0)) (λ _ _ _ H, H)))
        as [HwA _]
  end.
  rewrite HA' in HwA. cbn [snd] in HwA.
  (* the first [set_build_folder] *)
  rewrite set_build_folder_eq in HB'. cbn [fs set_build_path] in HB'.
  set (chosen := resolved_build_path env None true (fs wA')) in *.
  destruct (use_build_folder_inv env _ _ _ _ _ HB')
    as (fs1 & Htruthy & Hmk & Hwr).
  cbn [fs set_build_path] in Hmk.
  pose proof (relocated_settled env chosen false (set_build_path "" wA') fs1
                Htruthy Hmk Hwr) as Hsettled.
  rewrite (use_build_folder_result env chosen false _ fs1) in HB' by done.
  injection HB' as HB'.
  set (fs2 := <[save_file env := File chosen]> fs1) in *.
  assert (fs wB' = fs2) as HfsB by (by rewrite <- HB').
  cbn [relocated fs set_fs set_build_path] in Hsettled.
  (* the second import *)
  apply (import_module_run _
           (set_use_OpenMP config.use_OpenMP_setting
              (set_use_cuda config.use_cuda_setting (fresh_world (fs wB'))))
           wB' wC' wD' wE'); [| | done | done | done].
  - destruct Hroot as [x Hroot].
    apply (init_cache_current env _ c);
      cbn [fs set_use_OpenMP set_use_cuda fresh_world]; rewrite ?HfsB.
    + exists x. unfold fs2. rewrite lookup_insert_ne.
      * pose proof (makedirs_preserves true (fs wA') (locate env chosen)
                      _ _ Hroot) as Hkept.
        by rewrite Hmk in Hkept.
      * apply save_not_cache_root.
    + unfold fs2. rewrite lookup_insert_ne.
      * pose proof (makedirs_preserves true (fs wA') (locate env chosen)
                      _ _ Hstamp) as Hkept.
        by rewrite Hmk in Hkept.
      * intros Heq. symmetry in Heq. by apply stamp_not_save in Heq.
    + done.
  - rewrite set_build_folder_eq.
    cbn [fs set_build_path set_use_OpenMP set_use_cuda fresh_world].
    rewrite HfsB.
    destruct Hsettled as (H1 & H2 & H3 & H4).
    assert (resolved_build_path env None true fs2 = chosen) as ->.
    { unfold resolved_build_path. by rewrite H3. }
    rewrite settled_run.
    + f_equal. rewrite <- HB', HwA. reflexivity.
    + cbn [fs set_build_path set_use_OpenMP set_use_cuda fresh_world].
      by unfold settled.
Qed.

End restart.

Lemma reimport_is_stable_witness :
  let env := sample.linux_gpu in
  let w0 := (config.import_module env (fresh_world sample.stale_disk)).2 in
  config.import_module env (fresh_world (fs w0)) = (Ok tt, w0).
Proof.
  intros env w0.
  apply (reimport_is_stable env sample.stale_disk w0).
  - reflexivity.
  - vm_compute. reflexivity.
Defined.


(** ** The import on a cache that has to be rebuilt *)

Section rebuild.
Variable env : Env.

Lemma makedirs_outside exist_ok fs p k :
  k ∉ chain [] p → (fsops.makedirs exist_ok fs p).2 !! k = fs !! k.
Proof.
  intros Hk. unfold fsops.makedirs. destruct p as [| c p].
  - by destruct exist_ok.
  - by apply makedirs_walk_outside.
Qed.

Lemma probe_cuda_returns w : (config.probe_cuda env w).1 = Ok tt.
Proof.
  unfold config.probe_cuda, gpu_utils.get_gpu_props, KeOps_Warning.
  destruct (forallb _ config.cuda_dependencies);
    destruct (0 <? gpu_device_count env)%Z eqn:Hcount;
    destruct (use_cuda w) eqn:Hcuda;
    unfold_monad; repeat (simpl; rewrite ?Hcount, ?Hcuda); done.
Qed.

Lemma init_gpu_config_returns w : (config.init_gpu_config env w).1 = Ok tt.
Proof.
  unfold config.init_gpu_config. unfold_monad. by destruct (use_cuda w).
Qed.

Lemma tail_keeps_build_path d b :
  invariant (λ w, fs w = d ∧ build_path w = b) (config.init_cpp_flags env)
  ∧ invariant (λ w, fs w = d ∧ build_path w = b) (config.probe_cuda env)
  ∧ invariant (λ w, fs w = d ∧ build_path w = b)
      (config.init_gpu_config env).
Proof. split_and!; invariant_auto; done. Qed.

Lemma locate_default_build_path :
  locate env (config.default_build_path env) = cache_root env ++ ["build"].
Proof. by apply locate_join1. Qed.

Lemma truthy_default_build_path :
  pystr.truthy (config.default_build_path env) = true.
Proof. by apply truthy_join2. Qed.

Lemma between_root_and_child (root k : list string) (n : string) :
  root `prefix_of` k → k `prefix_of` root ++ [n] →
  k = root ∨ k = root ++ [n].
Proof.
  intros [r1 ->] [r2 Heq]. rewrite <- app_assoc in Heq.
  apply app_inv_head in Heq.
  destruct r1 as [| a r1]; [left; by rewrite app_nil_r |].
  right. destruct r1 as [| b r1].
  - injection Heq as <- _. done.
  - apply (f_equal length) in Heq. simpl in Heq. lia.
Qed.

(** The initialisation on a stale or missing cache folder, with the disk
    it leaves: the folder freshly made, plus the stamp. *)
Lemma init_cache_reinit w :
  wf_fs (fs w) →
  (∃ c, fs w !! stamp_file env = Some (File c)
        ∧ pystr.rstrip c ≠ keops_version env)
  ∨ (fs w !! cache_root env = None
     ∧ file_above (fs w) (cache_root env) = false) →
  ∃ fs2,
    config.init_cache env w
    = (Ok tt, set_fs (<[stamp_file env := File (keops_version env)]> fs2) w)
    ∧ Forall (λ q, fs2 !! q = Some Dir) (chain [] (cache_root env))
    ∧ (∀ k, cache_root env `prefix_of` k → k ≠ cache_root env →
            fs2 !! k = None).
Proof.
  unfold cache_root, stamp_file. rewrite locate_version_file.
  pose proof (cache_folder_not_root env) as Hne.
  pose proof (truthy_cache_folder env) as Htr.
  pose proof (truthy_version_file env) as Htv.
  pose proof (locate_version_file env) as Hlv.
  set (root := locate env (config.keops_cache_folder env)) in *.
  intros Hwf [(c & Hstamp & Hdiff) | [Habsent Habove]].
  - assert (fs w !! root = Some Dir) as Hdir.
    { rewrite <- (node_at_nonempty _ _ Hne).
      by apply (wf_above (fs w) ["keops_version"] Hwf root (File c)). }
    set (fs1 := filter (λ kv : list string * node, ¬ root `prefix_of` kv.1)
                  (fs w)).
    destruct (stamp_fresh_folder fs1 root "keops_version" (keops_version env))
      as (fs2 & Hmk & Hwr & Hdir2 & Hunder & Hout); [done | | |].
    { intros k Hk. unfold fs1. rewrite rmtree_lookup. by rewrite decide_True. }
    { apply Forall_forall. intros q Hq. unfold fs1. rewrite rmtree_lookup.
      case_decide; [done |].
      apply elem_of_chain in Hq as (r1 & r2 & Hr1 & Hroot & ->). simpl.
      destruct r2 as [| d r2].
      { exfalso. rewrite app_nil_r in Hroot. subst r1. by apply H. }
      assert (node_at (fs w) r1 = Some Dir) as Hq.
      { apply (wf_above (fs w) (d :: r2) Hwf r1 Dir); [| done].
        by rewrite <- Hroot. }
      rewrite node_at_nonempty in Hq by done. by rewrite Hq. }
    exists fs2. split_and!; [| by apply (makedirs_ok_chain false fs1) | done].
    unfold config.init_cache, os_path_exists, open_read, shutil_rmtree,
      os_makedirs, open_write.
    unfold_monad. rewrite Htr, Htv. fold root. rewrite Hlv.
    rewrite (node_at_nonempty _ _ Hne), Hdir.
    cbn [andb bool_decide decide_rel fst snd].
    rewrite bool_decide_eq_true_2 by done.
    unfold fsops.read. rewrite node_at_snoc, Hstamp.
    apply String.eqb_neq in Hdiff. rewrite Hdiff.
    cbn [negb fs set_fs]. unfold fsops.rmtree.
    rewrite (node_at_nonempty _ _ Hne), Hdir. fold fs1.
    cbn [fs set_fs]. rewrite Hmk. cbn [fs set_fs]. rewrite Hwr. done.
  - destruct (stamp_fresh_folder (fs w) root "keops_version"
                (keops_version env))
      as (fs2 & Hmk & Hwr & Hdir2 & Hunder & Hout); [done | | |].
    { intros k Hk. by apply (wf_below_absent (fs w) root). }
    { destruct root as [| d r _] using rev_ind; [done |].
      rewrite chain_snoc. apply Forall_app. split.
      - unfold file_above, ancestors in Habove.
        rewrite removelast_last in Habove. by apply no_file_in_list.
      - apply Forall_singleton. simpl. by rewrite Habsent. }
    exists fs2. split_and!; [| by apply (makedirs_ok_chain false (fs w)) | done].
    unfold config.init_cache, os_path_exists, open_read, shutil_rmtree,
      os_makedirs, open_write.
    unfold_monad. rewrite Htr, Htv. fold root. rewrite Hlv.
    rewrite (node_at_nonempty _ _ Hne), Habsent.
    rewrite bool_decide_eq_false_2 by (by intros [? ?]).
    cbn [andb fs set_fs]. rewrite Hmk. cbn [fs set_fs]. rewrite Hwr. done.
Qed.

(** X15: the import on a cache that has to be rebuilt.  On a tree-shaped
    disk whose cache folder carries the stamp of another version, or has
    no cache folder yet (and no file in the way of creating it), the
    import returns.  It ends with the default build folder
    [<cache folder>/build], also when the old cache had saved another
    location, and the cache folder then holds exactly the stamp with the
    running version, the saved location naming the default folder, and
    the empty default build folder. *)
Theorem import_rebuilds_cache disk :
  wf_fs disk →
  (∃ c, disk !! stamp_file env = Some (File c)
        ∧ pystr.rstrip c ≠ keops_version env)
  ∨ (disk !! cache_root env = None
     ∧ file_above disk (cache_root env) = false) →
  ∃ w0,
    config.import_module env (fresh_world disk) = (Ok tt, w0)
    ∧ build_path w0 = config.default_build_path env
    ∧ fs w0 !! cache_root env = Some Dir
    ∧ fs w0 !! stamp_file env = Some (File (keops_version env))
    ∧ fs w0 !! save_file env = Some (File (config.default_build_path env))
    ∧ fs w0 !! (cache_root env ++ ["build"]) = Some Dir
    ∧ ∀ k, cache_root env `prefix_of` k →
           k ∉ [cache_root env; stamp_file env; save_file env;
                cache_root env ++ ["build"]] →
           fs w0 !! k = None.
Proof.
  intros Hwf Hcase.
  pose proof (cache_folder_not_root env) as Hne. fold (cache_root env) in Hne.
  pose proof (save_file_snoc env) as Hsave.
  pose proof locate_default_build_path as Hbuild.
  pose proof truthy_default_build_path as Htruthy.
  assert (stamp_file env = cache_root env ++ ["keops_version"]) as Hstampf.
  { unfold stamp_file. by rewrite locate_version_file. }
  set (W0 := set_use_OpenMP config.use_OpenMP_setting
               (set_use_cuda config.use_cuda_setting (fresh_world disk))).
  destruct (init_cache_reinit W0 Hwf Hcase) as (fs2 & HA & Hchain & Hunder).
  set (fs3 := <[stamp_file env := File (keops_version env)]> fs2) in *.
  set (default_path := config.default_build_path env) in *.
  assert (fs2 !! cache_root env = Some Dir) as Hroot2.
  { rewrite Forall_forall in Hchain. by apply Hchain, self_in_chain. }
  assert (fs3 !! cache_root env = Some Dir) as Hroot3.
  { unfold fs3. rewrite lookup_insert_ne; [done |].
    rewrite Hstampf. intros Heq. apply (f_equal length) in Heq.
    rewrite length_app in Heq. simpl in Heq. lia. }
  assert (∀ n : string, n ≠ "keops_version" →
            fs3 !! (cache_root env ++ [n]) = None) as Hfree.
  { intros n Hn. unfold fs3. rewrite lookup_insert_ne.
    - apply Hunder; [by exists [n] |].
      intros Heq. apply (f_equal length) in Heq.
      rewrite length_app in Heq. simpl in Heq. lia.
    - rewrite Hstampf. intros Heq. by apply app_inj_tail in Heq as [_ <-]. }
  assert (fs3 !! save_file env = None) as Hsave3.
  { rewrite Hsave. by apply Hfree. }
  assert (resolved_build_path env None true fs3 = default_path) as Hchosen.
  { unfold resolved_build_path. by rewrite Hsave3. }
  (* the build folder *)
  destruct (use_build_folder_succeeds env default_path
              (set_build_path "" (set_fs fs3 W0)))
    as (fs4 & Hmk & Hwr); cbn [fs set_fs set_build_path].
  { done. }
  { rewrite Hbuild, chain_snoc. apply Forall_app. split.
    - eapply Forall_impl; [exact Hchain |]. simpl. intros q Hq.
      unfold fs3. destruct (decide (stamp_file env = q)) as [<- | Hq'].
      + rewrite Hstampf in Hq. rewrite Hunder in Hq; [done | by exists ["keops_version"] |].
        intros Heq. apply (f_equal length) in Heq.
        rewrite length_app in Heq. simpl in Heq. lia.
      + rewrite lookup_insert_ne by done. by rewrite Hq.
    - apply Forall_singleton. simpl. by rewrite Hfree. }
  { done. }
  { by rewrite Hsave3. }
  { rewrite Hsave, Hbuild. intros [r Heq].
    rewrite <- app_assoc in Heq. apply app_inv_head in Heq.
    by injection Heq. }
  cbn [fs set_fs set_build_path] in Hmk.
  set (fs5 := <[save_file env := File default_path]> fs4) in *.
  assert (config.set_build_folder env None true false
            (set_build_path "" (set_fs fs3 W0))
          = (Ok tt, relocated env default_path false fs5
                      (set_build_path "" (set_fs fs3 W0)))) as HB.
  { rewrite set_build_folder_eq. cbn [fs set_fs set_build_path].
    rewrite Hchosen. by apply use_build_folder_result. }
  set (wB := relocated env default_path false fs5
               (set_build_path "" (set_fs fs3 W0))) in *.
  (* the flags and the GPU configuration *)
  set (wj := set_jit_binary
               (Some (posixpath.join (build_path wB) ["keops_nvrtc.so"])) wB).
  destruct (config.init_cpp_flags env wj) as [rC wC] eqn:HC.
  destruct (init_cpp_flags_run env wj) as [HrC _]; [done |].
  rewrite HC in HrC. cbn [fst] in HrC. subst rC.
  destruct (config.probe_cuda env wC) as [rD wD] eqn:HD.
  pose proof (probe_cuda_returns wC) as HrD. rewrite HD in HrD.
  cbn [fst] in HrD. subst rD.
  destruct (config.init_gpu_config env wD) as [rE wE] eqn:HE.
  pose proof (init_gpu_config_returns wD) as HrE. rewrite HE in HrE.
  cbn [fst] in HrE. subst rE.
  destruct (tail_keeps_build_path fs5 default_path)
    as (Hflags & Hprobe & Hgpu).
  assert (fs wE = fs5 ∧ build_path wE = default_path) as [HfsE HbpE].
  { pose proof (Hflags wj (conj eq_refl eq_refl)) as H1.
    rewrite HC in H1. pose proof (Hprobe wC H1) as H2.
    rewrite HD in H2. pose proof (Hgpu wD H2) as H3.
    by rewrite HE in H3. }
  exists (set_init_cudalibs_flag false wE).
  cbn [fs build_path set_init_cudalibs_flag]. rewrite HfsE, HbpE.
  assert (∀ k y, fs3 !! k = Some y → k ≠ save_file env →
            fs5 !! k = Some y) as Hkept.
  { intros k y Hy Hk. unfold fs5. rewrite lookup_insert_ne by done.
    pose proof (makedirs_preserves true fs3 (locate env default_path) k y Hy)
      as Hp.
    by rewrite Hmk in Hp. }
  split_and!.
  - by apply (import_module_run env disk (set_fs fs3 W0) wB wC wD wE).
  - done.
  - apply Hkept; [done |]. intros Heq. symmetry in Heq.
    by apply save_not_cache_root in Heq.
  - apply Hkept; [by apply lookup_insert_eq | apply stamp_not_save].
  - unfold fs5. by rewrite lookup_insert_eq.
  - unfold fs5. rewrite lookup_insert_ne.
    + apply makedirs_ok_chain in Hmk. rewrite Forall_forall in Hmk.
      rewrite <- Hbuild. apply Hmk, self_in_chain.
      rewrite Hbuild. by destruct (cache_root env).
    + rewrite Hsave. intros Heq. by apply app_inj_tail in Heq as [_ ?].
  - intros k Hk Hnot.
    rewrite !elem_of_cons, elem_of_nil in Hnot.
    assert (k ≠ cache_root env ∧ k ≠ stamp_file env ∧ k ≠ save_file env
            ∧ k ≠ cache_root env ++ ["build"]) as (N1 & N2 & N3 & N4)
      by (split_and!; intros ->; apply Hnot; tauto).
    unfold fs5. rewrite lookup_insert_ne by done.
    pose proof (makedirs_outside true fs3 (locate env default_path) k) as Ho.
    rewrite Hmk in Ho. cbn [snd] in Ho. rewrite Ho.
    + unfold fs3. rewrite lookup_insert_ne by done. by apply Hunder.
    + intros Hin%in_chain_prefix. rewrite Hbuild in Hin.
      by destruct (between_root_and_child _ _ _ Hk Hin).
Qed.

End rebuild.

(** A cache stamped by an older release that had saved [/data/keops] as
    its build folder. *)
Lemma import_rebuilds_cache_witness :
  let env := sample.linux_gpu in
  let disk : gmap (list string) node :=
    <[sample.cache ++ ["build_folder_location.txt"] := File "/data/keops"]>
      (<[["data"] := Dir]> sample.stale_disk) in
  ∃ w0,
    config.import_module env (fresh_world disk) = (Ok tt, w0)
    ∧ build_path w0 = config.default_build_path env
    ∧ fs w0 !! cache_root env = Some Dir
    ∧ fs w0 !! stamp_file env = Some (File (keops_version env))
    ∧ fs w0 !! save_file env = Some (File (config.default_build_path env))
    ∧ fs w0 !! (cache_root env ++ ["build"]) = Some Dir
    ∧ ∀ k, cache_root env `prefix_of` k →
           k ∉ [cache_root env; stamp_file env; save_file env;
                cache_root env ++ ["build"]] →
           fs w0 !! k = None.
Proof.
  intros env disk.
  apply (import_rebuilds_cache env disk).
  - apply (bool_decide_unpack _). vm_compute. exact I.
  - left. exists "1.0". split; [vm_compute; reflexivity |].
    vm_compute. discriminate.
Defined.

(** The preloader on a machine where opening [libcuda] fails. *)
Lemma init_cudalibs_flag_iff_loaded_witness :
  let env :=
    {| home := "/home/u"; cwd := ["work"];
       config_dir := "/opt/keops/config";
       keops_version := "1.1"; platform_system := "Linux";
       getenv := λ _, None;
       find_library := λ lib, Some ("lib" +:+ lib +:+ ".so");
       dlopen_ok := λ lib, negb (bool_decide (lib = Some "libcuda.so"));
       gpu_device_count := 1%Z; get_cuda_version := 11%Z;
       libcuda_folder_found := "/usr/lib";
       libnvrtc_folder_found := "/usr/local/cuda/lib64";
       get_cuda_include_path := None |} in
  let r := config.init_cudalibs env (fresh_world ∅) in
  r.1 = Raise OSError
  ∧ init_cudalibs_flag r.2 = false
  ∧ ∃ opened,
      dl_loaded r.2 = dl_loaded (fresh_world ∅) ++ opened
      ∧ opened `prefix_of` [find_library env "nvrtc"; find_library env "cuda"].
Proof.
  intros env r.
  destruct (init_cudalibs_flag_iff_loaded env (fresh_world ∅)) as [_ Hraise].
  split; [vm_compute; reflexivity |].
  destruct (Hraise OSError) as (_ & Hflag & Hopened);
    [vm_compute; reflexivity |].
  by split.
Defined.

Lemma init_cache_stays_inside_witness :
  let env := sample.linux_gpu in
  let r := config.init_cache env (fresh_world sample.relocated_disk) in
  fs r.2 !! ["data"] = Some Dir.
Proof.
  intros env r.
  destruct (init_cache_stays_inside env (fresh_world sample.relocated_disk))
    as [_ Hkept].
  apply Hkept; [| reflexivity].
  apply (bool_decide_unpack _). vm_compute. exact I.
Defined.

(** ** How the import can fail *)

Section failure.
Variable env : Env.






End failure.

